(** * pmd-github-action: version policy, command construction and
      change-set resolution ([src/util.ts])

    A shallow embedding of [src/util.ts].  Strings are [string], JavaScript
    arrays are lists, the insertion-ordered [Set<string>] is a duplicate-free
    list, and every call that leaves the process (tool cache, file system,
    process launcher, GitHub REST API, [core.warning]) is recorded as an
    event of a trace, its answer being supplied by a record of services.
    [core.debug] and [core.info] only print diagnostics and are left out.

    The npm package [semver] and Node's [path] module are not part of the
    repository; the modules [Semver] and [PosixPath] below model the
    functions of them that [util.ts] calls. *)

From Stdlib Require Import String Ascii List Bool Arith NArith Lia.
From Stdlib Require Import DecimalString.
Import ListNotations.
Open Scope string_scope.

(** ** JavaScript values and exceptions *)

(** What a [throw] carries: [new Error(msg)], the [TypeError] the runtime
    raises itself, and the failure of an external service. *)
Inductive JsError : Type :=
| Error (msg : string)
| TypeError (msg : string)
| ServiceError (msg : string).

Inductive result (A : Type) : Type :=
| Ok (a : A)
| Throw (e : JsError).
Arguments Ok {A} a.
Arguments Throw {A} e.

Module Js.

(** [s.split(c)] for a one-character separator. *)
Fixpoint split (c : ascii) (s : string) : list string :=
  match s with
  | EmptyString => [EmptyString]
  | String a r =>
      if Ascii.eqb a c then EmptyString :: split c r
      else match split c r with
           | [] => [String a EmptyString]
           | h :: t => String a h :: t
           end
  end.

(** [l.join(sep)]. *)
Definition join (sep : string) (l : list string) : string :=
  String.concat sep l.

(** [s.startsWith(p)]. *)
Definition startsWith (s p : string) : bool := String.prefix p s.

Fixpoint drop (n : nat) (s : string) : string :=
  match n, s with
  | O, _ => s
  | S _, EmptyString => EmptyString
  | S k, String _ r => drop k r
  end.

(** [s.replace(pat, rep)] with a string pattern: the first occurrence
    only. *)
Fixpoint replace (pat rep s : string) : string :=
  if String.prefix pat s then rep ++ drop (String.length pat) s
  else match s with
       | EmptyString => EmptyString
       | String a r => String a (replace pat rep r)
       end.

Definition is_space (a : ascii) : bool :=
  let n := nat_of_ascii a in
  ((n =? 32) || ((9 <=? n) && (n <=? 13)))%nat.

Fixpoint trimStart (s : string) : string :=
  match s with
  | String a r => if is_space a then trimStart r else s
  | EmptyString => EmptyString
  end.

Fixpoint rev_string (s acc : string) : string :=
  match s with
  | EmptyString => acc
  | String a r => rev_string r (String a acc)
  end.

(** [s.trim()], on ASCII white space. *)
Definition trim (s : string) : string :=
  rev_string (trimStart (rev_string (trimStart s) "")) "".

(** [`${n}`] for a non-negative integer. *)
Definition of_N (n : N) : string := NilZero.string_of_uint (N.to_uint n).

Definition is_digit (a : ascii) : bool :=
  let n := nat_of_ascii a in ((48 <=? n) && (n <=? 57))%nat.

Fixpoint all_chars (p : ascii -> bool) (s : string) : bool :=
  match s with
  | EmptyString => true
  | String a r => p a && all_chars p r
  end.

(** [/^[0-9]+$/.test(s)]. *)
Definition numeric (s : string) : bool :=
  negb (String.eqb s "") && all_chars is_digit s.

Fixpoint digits_to_N (s : string) (acc : N) : N :=
  match s with
  | EmptyString => acc
  | String a r => digits_to_N r (acc * 10 + N.of_nat (nat_of_ascii a - 48))%N
  end.

(** [+s] for a string of decimal digits. *)
Definition to_N (s : string) : N := digits_to_N s 0%N.

End Js.

(** ** The [semver] package

    A model of the three entry points [util.ts] uses, [semver.gte],
    [semver.major] and (through them) the strict parser of [new SemVer(v)].
    Numeric prerelease identifiers are compared as exact naturals. *)
Module Semver.

Record SemVer : Type := mkSemVer {
  major : N;
  minor : N;
  patch : N;
  prerelease : list string;
  build : list string
}.

Definition MAX_LENGTH : nat := 256.
Definition MAX_SAFE_INTEGER : N := 9007199254740991%N.

(** [0|[1-9]\d*] *)
Definition numeric_identifier (s : string) : bool :=
  Js.numeric s &&
  match s with
  | String "0" (String _ _) => false
  | _ => true
  end.

Definition is_ident_char (a : ascii) : bool :=
  let n := nat_of_ascii a in
  (Js.is_digit a || ((65 <=? n) && (n <=? 90)) || ((97 <=? n) && (n <=? 122))
   || (n =? 45))%nat.

(** [[a-zA-Z0-9-]+] *)
Definition build_identifier (s : string) : bool :=
  negb (String.eqb s "") && Js.all_chars is_ident_char s.

(** [0|[1-9]\d*|\d*[a-zA-Z-][a-zA-Z0-9-]*] *)
Definition prerelease_identifier (s : string) : bool :=
  build_identifier s && (negb (Js.numeric s) || numeric_identifier s).

(** Cuts [s] at the first occurrence of [c]. *)
Fixpoint cut (c : ascii) (s : string) : string * option string :=
  match s with
  | EmptyString => (EmptyString, None)
  | String a r =>
      if Ascii.eqb a c then (EmptyString, Some r)
      else let '(h, t) := cut c r in (String a h, t)
  end.

Definition parse_identifiers (ok : string -> bool) (s : option string)
  : option (list string) :=
  match s with
  | None => Some []
  | Some s => let ids := Js.split "." s in
              if forallb ok ids then Some ids else None
  end.

(** The strict grammar
    [^v?MAJOR.MINOR.PATCH(-PRERELEASE)?(+BUILD)?$]. *)
Definition parse_full (s : string) : option SemVer :=
  let s := match s with String "v" r => r | _ => s end in
  let '(front, bld) := cut "+" s in
  let '(main, pre) := cut "-" front in
  match Js.split "." main with
  | [ma; mi; pa] =>
      if numeric_identifier ma && numeric_identifier mi && numeric_identifier pa
      then match parse_identifiers prerelease_identifier pre,
                 parse_identifiers build_identifier bld with
           | Some p, Some b =>
               Some (mkSemVer (Js.to_N ma) (Js.to_N mi) (Js.to_N pa) p b)
           | _, _ => None
           end
      else None
  | _ => None
  end.

(** [new SemVer(version)]. *)
Definition parse (version : string) : result SemVer :=
  if (MAX_LENGTH <? String.length version)%nat
  then Throw (TypeError "version is longer than 256 characters")
  else match parse_full (Js.trim version) with
       | None => Throw (TypeError ("Invalid Version: " ++ version))
       | Some v =>
           if (MAX_SAFE_INTEGER <? major v)%N
           then Throw (TypeError "Invalid major version")
           else if (MAX_SAFE_INTEGER <? minor v)%N
           then Throw (TypeError "Invalid minor version")
           else if (MAX_SAFE_INTEGER <? patch v)%N
           then Throw (TypeError "Invalid patch version")
           else Ok v
       end.

(** [compareIdentifiers(a, b)] *)
Definition compareIdentifiers (a b : string) : comparison :=
  let anum := Js.numeric a in
  let bnum := Js.numeric b in
  if anum && bnum then N.compare (Js.to_N a) (Js.to_N b)
  else if String.eqb a b then Eq
  else if anum && negb bnum then Lt
  else if bnum && negb anum then Gt
  else if String.ltb a b then Lt else Gt.

(** [SemVer.compareMain] *)
Definition compareMain (a b : SemVer) : comparison :=
  match N.compare (major a) (major b) with
  | Eq => match N.compare (minor a) (minor b) with
          | Eq => N.compare (patch a) (patch b)
          | c => c
          end
  | c => c
  end.

(** The [do ... while (++i)] loop of [SemVer.comparePre]. *)
Fixpoint comparePreLoop (a b : list string) : comparison :=
  match a, b with
  | [], [] => Eq
  | _ :: _, [] => Gt
  | [], _ :: _ => Lt
  | x :: a', y :: b' =>
      if String.eqb x y then comparePreLoop a' b'
      else compareIdentifiers x y
  end.

(** [SemVer.comparePre]: not having a prerelease is greater than having
    one. *)
Definition comparePre (a b : SemVer) : comparison :=
  match prerelease a, prerelease b with
  | _ :: _, [] => Lt
  | [], _ :: _ => Gt
  | [], [] => Eq
  | pa, pb => comparePreLoop pa pb
  end.

(** [SemVer.compare] *)
Definition compareSemVer (a b : SemVer) : comparison :=
  match compareMain a b with
  | Eq => comparePre a b
  | c => c
  end.

(** [semver.gte(a, b)] *)
Definition gte (a b : string) : result bool :=
  match parse a with
  | Throw e => Throw e
  | Ok va =>
      match parse b with
      | Throw e => Throw e
      | Ok vb => Ok (match compareSemVer va vb with Lt => false | _ => true end)
      end
  end.

(** [semver.major(a)] *)
Definition major_of (a : string) : result N :=
  match parse a with
  | Throw e => Throw e
  | Ok va => Ok (major va)
  end.

End Semver.

(** ** VersionPolicy *)

Definition useNewArgsFormat (pmdVersion : string) : result bool :=
  Semver.gte pmdVersion "6.41.0".

Definition isPmd7Cli (pmdVersion : string) : result bool :=
  match Semver.major_of pmdVersion with
  | Throw e => Throw e
  | Ok m => Ok (7 <=? m)%N
  end.

(** ** Node's [path] module

    [util.ts] calls [path.normalize] and [path.join] of the host.  The class
    [PathModule] stands for the module of whatever host the action runs on;
    [PosixPath] models [path.posix], segment by segment. *)

Class PathModule : Type := {
  normalize : string -> string;
  join : list string -> string
}.

Module PosixPath.

Definition endsWithSlash (s : string) : bool :=
  match Js.rev_string s "" with
  | String "/" _ => true
  | _ => false
  end.

(** [normalizeString(path, allowAboveRoot, '/', isPosixPathSeparator)]
    on the segments of [path]; [res] is the output so far, last segment
    first. *)
Fixpoint normalizeSegments (allowAboveRoot : bool) (segs res : list string)
  : list string :=
  match segs with
  | [] => rev res
  | seg :: rest =>
      if (seg =? "") || (seg =? ".") then
        normalizeSegments allowAboveRoot rest res
      else if seg =? ".." then
        match res with
        | top :: res' =>
            if top =? ".." then
              normalizeSegments allowAboveRoot rest
                (if allowAboveRoot then ".." :: res else res)
            else normalizeSegments allowAboveRoot rest res'
        | [] =>
            normalizeSegments allowAboveRoot rest
              (if allowAboveRoot then [".."] else [])
        end
      else normalizeSegments allowAboveRoot rest (seg :: res)
  end.

Definition normalize (path : string) : string :=
  if path =? "" then "."
  else
    let isAbsolute := Js.startsWith path "/" in
    let trailingSeparator := endsWithSlash path in
    let p := Js.join "/"
               (normalizeSegments (negb isAbsolute) (Js.split "/" path) []) in
    if p =? "" then
      if isAbsolute then "/" else if trailingSeparator then "./" else "."
    else
      let p := if trailingSeparator then p ++ "/" else p in
      if isAbsolute then "/" ++ p else p.

Definition join (args : list string) : string :=
  match filter (fun a => negb (a =? "")) args with
  | [] => "."
  | parts => normalize (Js.join "/" parts)
  end.

End PosixPath.

#[export] Instance posix : PathModule := {|
  normalize := PosixPath.normalize;
  join := PosixPath.join
|}.

(** ** Data model *)

Record PmdInfo : Type := mkPmdInfo {
  version : string;
  path : string
}.

(** The [status] of a diff entry of the GitHub REST API. *)
Inductive Status : Type :=
| added | removed | modified | renamed | copied | changed | unchanged.

Definition Status_eqb (a b : Status) : bool :=
  match a, b with
  | added, added | removed, removed | modified, modified | renamed, renamed
  | copied, copied | changed, changed | unchanged, unchanged => true
  | _, _ => false
  end.

Record DiffEntry : Type := mkDiffEntry {
  filename : string;
  status : Status
}.

Record Asset : Type := mkAsset {
  name : string;
  browser_download_url : string
}.

(** [release.data] of [getLatestRelease] / [getReleaseByTag]. *)
Record Release : Type := mkRelease {
  tag_name : string;
  assets : list Asset
}.

Record ExecOutput : Type := mkExecOutput {
  exitCode : nat;
  stdout : string;
  stderr : string
}.

(** [string | string[]] *)
Inductive SourceSelector : Type :=
| SourcePath (sourcePath : string)
| FileList (fileList : list string).

Record Repo : Type := mkRepo {
  owner : string;
  repo : string
}.

(** The parts of [new github_context()] that [util.ts] reads. *)
Record Context : Type := mkContext {
  eventName : string;
  context_repo : Repo;
  number : N;
  ref : string;
  before : string;
  after : string
}.

(** An Octokit client: the endpoint it talks to, the [auth] option it is
    built with, and whether it is the plain [Octokit] used under Jest. *)
Record Octokit : Type := mkOctokit {
  baseUrl : string;
  auth : option string;
  plain : bool
}.

(** The process environment: [github_utils.defaults.baseUrl],
    [process.env['JEST_WORKER_ID']] and the value of [helper.getPlatform()]
    ([util.ts] imports [./util_helper], which is not among the sources, so
    what it returns is a parameter). *)
Record Env : Type := mkEnv {
  defaults_baseUrl : string;
  JEST_WORKER_ID : option string;
  getPlatform : string
}.

(** ** External calls *)

Inductive Event : Type :=
| TcFind (toolName versionSpec : string)
| TcDownloadTool (url : string)
| TcExtractZip (file : string)
| TcCacheDir (sourceDir tool ver : string)
| FsReaddir (dir : string)
| FsWriteFile (file data encoding : string)
| ExecGetExecOutput (commandLine : string) (args : list string)
    (ignoreReturnCode : bool)
| GetLatestRelease (o : Octokit) (r : Repo)
| GetReleaseByTag (o : Octokit) (r : Repo) (tag : string)
| PullsListFiles (o : Octokit) (r : Repo) (pull_number : N) (per_page page : nat)
| CompareCommitsWithBasehead (o : Octokit) (r : Repo) (basehead : string)
    (per_page page : nat)
| CoreWarning (msg : string).

(** What the outside world answers. *)
Record Services : Type := mkServices {
  tc_find : string -> string -> result string;
  tc_downloadTool : string -> result string;
  tc_extractZip : string -> result string;
  tc_cacheDir : string -> string -> string -> result string;
  fs_readdir : string -> result (list string);
  fs_writeFile : string -> string -> string -> result unit;
  exec_getExecOutput : string -> list string -> bool -> result ExecOutput;
  repos_getLatestRelease : Octokit -> Repo -> result Release;
  repos_getReleaseByTag : Octokit -> Repo -> string -> result Release;
  pulls_listFiles : Octokit -> Repo -> N -> nat -> nat -> result (list DiffEntry);
  repos_compareCommitsWithBasehead :
    Octokit -> Repo -> string -> nat -> nat -> result (option (list DiffEntry))
}.

(** A computation yields a value or throws, and leaves the external calls
    it made, oldest first. *)
Definition M (A : Type) : Type := (result A * list Event)%type.

Definition ret {A} (a : A) : M A := (Ok a, []).

Definition throw {A} (e : JsError) : M A := (Throw e, []).

Definition bind {A B} (m : M A) (k : A -> M B) : M B :=
  match m with
  | (Ok a, t) => let '(r, t') := k a in (r, (t ++ t')%list)
  | (Throw e, t) => (Throw e, t)
  end.

(** A pure step that may throw. *)
Definition lift {A} (r : result A) : M A := (r, []).

(** One external call and its answer. *)
Definition call {A} (e : Event) (answer : result A) : M A := (answer, [e]).

Declare Scope js_scope.
Delimit Scope js_scope with js.
Notation "x <- m ;; k" := (bind m (fun x => k))
  (at level 61, m at next level, right associativity) : js_scope.
Notation "m ;;; k" := (bind m (fun _ => k))
  (at level 61, right associativity) : js_scope.
Notation "' pat <- m ;; k" := (bind m (fun x => match x with pat => k end))
  (at level 61, pat pattern, m at next level, right associativity) : js_scope.
Open Scope js_scope.

Definition value {A} (m : M A) : result A := fst m.
Definition trace {A} (m : M A) : list Event := snd m.

(** ** [src/util.ts] *)

(** Load at most [MAX_PAGE] pages when determining modified files. *)
Definition MAX_PAGE : nat := 10.

Definition PUBLIC_GITHUB_API_URL : string := "https://api.github.com".

(** [Set.prototype.add] on an insertion-ordered set. *)
Definition Set_add (s : list string) (f : string) : list string :=
  if existsb (String.eqb f) s then s else (s ++ [f])%list.

Definition getPmdVersionFromRelease (release : Release) : string :=
  Js.replace "pmd_releases/" "" (tag_name release).

Definition getDownloadURL (release : Release) : result string :=
  let asset :=
    hd_error
      (filter
         (fun a =>
            let version := getPmdVersionFromRelease release in
            (name a =? "pmd-bin-" ++ version ++ ".zip")
            || (name a =? "pmd-dist-" ++ version ++ "-bin.zip"))
         (assets release)) in
  match asset with
  | None =>
      Throw (TypeError
               "Cannot read properties of undefined (reading 'browser_download_url')")
  | Some asset => Ok (browser_download_url asset)
  end.

Section Util.

Context {P : PathModule}.
Variable svc : Services.
Variable env : Env.
(** What [new github_context()] reads from the environment. *)
Variable context : Context.

Definition jest : bool :=
  match JEST_WORKER_ID env with
  | Some s => negb (s =? "")
  | None => false
  end.

Definition determinePmdRelease (pmdVersion token : string) : M Release :=
  let canUseToken := defaults_baseUrl env =? PUBLIC_GITHUB_API_URL in
  let octokit :=
    if canUseToken then mkOctokit (defaults_baseUrl env) (Some token) false
    else mkOctokit PUBLIC_GITHUB_API_URL None false in
  let octokit :=
    if jest then
      if canUseToken then mkOctokit PUBLIC_GITHUB_API_URL (Some token) true
      else mkOctokit PUBLIC_GITHUB_API_URL None true
    else octokit in
  if pmdVersion =? "latest" then
    call (GetLatestRelease octokit (mkRepo "pmd" "pmd"))
         (repos_getLatestRelease svc octokit (mkRepo "pmd" "pmd"))
  else
    call (GetReleaseByTag octokit (mkRepo "pmd" "pmd")
            ("pmd_releases/" ++ pmdVersion))
         (repos_getReleaseByTag svc octokit (mkRepo "pmd" "pmd")
            ("pmd_releases/" ++ pmdVersion)).

Definition downloadPmdRelease (version token : string) : M PmdInfo :=
  let pmdVersion := version in
  cachedPmdPath <- call (TcFind "pmd" version) (tc_find svc "pmd" version) ;;
  '(pmdVersion, cachedPmdPath) <-
    (if cachedPmdPath =? "" then
       pmdRelease <- determinePmdRelease version token ;;
       let pmdVersion := getPmdVersionFromRelease pmdRelease in
       url <- lift (getDownloadURL pmdRelease) ;;
       pathToZipDistribution <-
         call (TcDownloadTool url) (tc_downloadTool svc url) ;;
       pmdExtractedFolder <-
         call (TcExtractZip pathToZipDistribution)
              (tc_extractZip svc pathToZipDistribution) ;;
       cachedPmdPath <-
         call (TcCacheDir pmdExtractedFolder "pmd" pmdVersion)
              (tc_cacheDir svc pmdExtractedFolder "pmd" pmdVersion) ;;
       ret (pmdVersion, cachedPmdPath)
     else ret (pmdVersion, cachedPmdPath)) ;;
  ret {| version := pmdVersion;
         path := join [cachedPmdPath; "pmd-bin-" ++ pmdVersion] |}.

Definition downloadPmdUrl (version downloadUrl : string) : M PmdInfo :=
  let pmdVersion := version in
  pathToZipDistribution <-
    call (TcDownloadTool downloadUrl) (tc_downloadTool svc downloadUrl) ;;
  pmdExtractedFolder <-
    call (TcExtractZip pathToZipDistribution)
         (tc_extractZip svc pathToZipDistribution) ;;
  files <- call (FsReaddir pmdExtractedFolder)
                (fs_readdir svc pmdExtractedFolder) ;;
  match hd_error files with
  | None =>
      throw (TypeError "The 'path' argument must be of type string")
  | Some subpath =>
      ret {| version := pmdVersion;
             path := join [pmdExtractedFolder; subpath] |}
  end.

(** [downloadUrl] is [string | undefined]. *)
Definition is_undefined (downloadUrl : option string) : bool :=
  match downloadUrl with
  | None => true
  | Some _ => false
  end.

Definition is_empty (downloadUrl : option string) : bool :=
  match downloadUrl with
  | Some url => url =? ""
  | None => false
  end.

(** [`${downloadUrl}`] *)
Definition show (downloadUrl : option string) : string :=
  match downloadUrl with
  | Some url => url
  | None => "undefined"
  end.

Definition downloadPmd (version token : string) (downloadUrl : option string)
  : M PmdInfo :=
  if (version =? "latest") && negb (is_undefined downloadUrl)
     && negb (is_empty downloadUrl)
  then
    throw (Error ("Can't combine version=" ++ version
                  ++ " with custom downloadUrl=" ++ show downloadUrl))
  else
    match downloadUrl with
    | None => downloadPmdRelease version token
    | Some url =>
        if url =? "" then downloadPmdRelease version token
        else downloadPmdUrl version url
    end.

Definition writeFileList (fileList : list string) : M unit :=
  call (FsWriteFile (join ["."; "pmd.filelist"]) (Js.join "," fileList) "utf8")
       (fs_writeFile svc (join ["."; "pmd.filelist"]) (Js.join "," fileList)
          "utf8").

Definition executePmd (pmdInfo : PmdInfo)
    (fileListOrSourcePath : SourceSelector)
    (ruleset reportFormat reportFile minimumPriority : string)
  : M ExecOutput :=
  let pmdExecutable := "/bin/run.sh pmd" in
  pmd7 <- lift (isPmd7Cli (version pmdInfo)) ;;
  let pmdExecutable := if pmd7 then "/bin/pmd" else pmdExecutable in
  let pmdExecutable :=
    if getPlatform env =? "win32" then "\bin\pmd.bat" else pmdExecutable in
  pmd7 <- lift (isPmd7Cli (version pmdInfo)) ;;
  let pmdExecutable :=
    if pmd7 then pmdExecutable ++ " check --no-progress" else pmdExecutable in
  sourceParameter <-
    match fileListOrSourcePath with
    | FileList fileList =>
        writeFileList fileList ;;;
        newArgs <- lift (useNewArgsFormat (version pmdInfo)) ;;
        ret [if newArgs then "--file-list" else "-filelist"; "pmd.filelist"]
    | SourcePath sourcePath => ret ["-d"; sourcePath]
    end ;;
  newArgs <- lift (useNewArgsFormat (version pmdInfo)) ;;
  let args :=
    ((if newArgs then "--no-cache" else "-no-cache")
       :: sourceParameter
       ++ ["-f"; reportFormat; "-R"; ruleset; "-r"; reportFile;
           "--minimum-priority"; minimumPriority])%list in
  call (ExecGetExecOutput (path pmdInfo ++ pmdExecutable) args true)
       (exec_getExecOutput svc (path pmdInfo ++ pmdExecutable) args true).

Definition keptStatus (f : DiffEntry) : bool :=
  Status_eqb (status f) added
  || Status_eqb (status f) changed
  || Status_eqb (status f) modified.

Definition extractFilenames (allFiles : list DiffEntry) (page : nat)
    (sourcePath : string) : list string :=
  let sourcePath :=
    if negb (sourcePath =? ".") then normalize (sourcePath ++ "/")
    else sourcePath in
  filter (fun f => (sourcePath =? ".") || Js.startsWith f sourcePath)
    (map (fun f => normalize (filename f))
       (filter keptStatus allFiles)).

(** The [for (page = 1; page <= MAX_PAGE; page++)] loop of the
    [pull_request] branch, from the state [(page, modifiedFilenames)];
    it yields the value of [page] on exit and the set. *)
Fixpoint pullRequestLoop (octokit : Octokit) (sourcePath : string)
    (fuel page : nat) (modifiedFilenames : list string)
  : M (nat * list string) :=
  match fuel with
  | O => ret (page, modifiedFilenames)
  | S fuel =>
      if (page <=? MAX_PAGE)%nat then
        allFiles <-
          call (PullsListFiles octokit (context_repo context)
                  (number context) 30 page)
               (pulls_listFiles svc octokit (context_repo context)
                  (number context) 30 page) ;;
        if (List.length allFiles =? 0)%nat then ret (page, modifiedFilenames)
        else
          let filenames := extractFilenames allFiles page sourcePath in
          pullRequestLoop octokit sourcePath fuel (S page)
            (fold_left Set_add filenames modifiedFilenames)
      else ret (page, modifiedFilenames)
  end.

(** The same loop of the [push] branch. *)
Fixpoint pushLoop (octokit : Octokit) (sourcePath : string)
    (fuel page : nat) (modifiedFilenames : list string)
  : M (nat * list string) :=
  match fuel with
  | O => ret (page, modifiedFilenames)
  | S fuel =>
      if (page <=? MAX_PAGE)%nat then
        files <-
          call (CompareCommitsWithBasehead octokit (context_repo context)
                  (before context ++ "..." ++ after context) 30 page)
               (repos_compareCommitsWithBasehead svc octokit
                  (context_repo context)
                  (before context ++ "..." ++ after context) 30 page) ;;
        match files with
        | None => ret (page, modifiedFilenames)
        | Some allFiles =>
            if (List.length allFiles =? 0)%nat
            then ret (page, modifiedFilenames)
            else
              let filenames := extractFilenames allFiles page sourcePath in
              pushLoop octokit sourcePath fuel (S page)
                (fold_left Set_add filenames modifiedFilenames)
        end
      else ret (page, modifiedFilenames)
  end.

(** [github.getOctokit(token)] of the actions toolkit: it refuses an empty
    token and sends the token as [token <token>]. *)
Definition getOctokit (token : string) : M Octokit :=
  if token =? "" then throw (Error "Parameter token or opts.auth is required")
  else ret (mkOctokit (defaults_baseUrl env) (Some ("token " ++ token)) false).

Definition determineModifiedFiles (token sourcePath : string)
  : M (option (list string)) :=
  octokit <- getOctokit token ;;
  let octokit :=
    if jest then mkOctokit (defaults_baseUrl env) (Some token) true
    else octokit in
  if eventName context =? "pull_request" then
    '(page, modifiedFilenames) <-
      pullRequestLoop octokit sourcePath (S MAX_PAGE) 1 [] ;;
    (if (MAX_PAGE <=? page)%nat then
       call (CoreWarning
               ("The pull request " ++ Js.of_N (number context)
                ++ " is too big - not all changed files will be analyzed!"))
            (Ok tt)
     else ret tt) ;;;
    ret (Some modifiedFilenames)
  else if eventName context =? "push" then
    '(page, modifiedFilenames) <-
      pushLoop octokit sourcePath (S MAX_PAGE) 1 [] ;;
    (if (MAX_PAGE <=? page)%nat then
       call (CoreWarning
               ("The push on " ++ ref context
                ++ " is too big - not all changed files will be analyzed!"))
            (Ok tt)
     else ret tt) ;;;
    ret (Some modifiedFilenames)
  else
    call (CoreWarning
            ("Unsupported github action event '" ++ eventName context
             ++ "' - cannot determine modified files. All files will be analyzed."))
         (Ok tt) ;;;
    ret None.

End Util.

(** * Definitions used to state the properties *)

(** ** Precedence of versions *)

Module SemverOrder.

Import Semver.

(** Precedence of prerelease identifiers as semver.org states it:
    numeric identifiers compare as numbers, the others in ASCII order,
    and a numeric identifier precedes one that is not. *)
Inductive identifier_lt (a b : string) : Prop :=
| identifier_lt_numeric :
    Js.numeric a = true -> Js.numeric b = true ->
    (Js.to_N a < Js.to_N b)%N -> identifier_lt a b
| identifier_lt_mixed :
    Js.numeric a = true -> Js.numeric b = false -> identifier_lt a b
| identifier_lt_ascii :
    Js.numeric a = false -> Js.numeric b = false ->
    String.compare a b = Lt -> identifier_lt a b.

(** Two prereleases are compared identifier by identifier; when all the
    identifiers of one are the first ones of the other, the shorter one
    precedes. *)
Inductive prerelease_lt : list string -> list string -> Prop :=
| prerelease_lt_shorter y b : prerelease_lt [] (y :: b)
| prerelease_lt_head x y a b :
    identifier_lt x y -> prerelease_lt (x :: a) (y :: b)
| prerelease_lt_tail x a b :
    prerelease_lt a b -> prerelease_lt (x :: a) (x :: b).

(** A version with a prerelease precedes the same version without one,
    and the same version with a greater prerelease. *)
Definition pre_precedes (a b : list string) : Prop :=
  a <> [] /\ (b = [] \/ prerelease_lt a b).

(** Precedence of versions: major, then minor, then patch, then the
    prerelease; build metadata does not count. *)
Inductive precedes (a b : SemVer) : Prop :=
| precedes_major :
    (major a < major b)%N -> precedes a b
| precedes_minor :
    major a = major b -> (minor a < minor b)%N -> precedes a b
| precedes_patch :
    major a = major b -> minor a = minor b -> (patch a < patch b)%N ->
    precedes a b
| precedes_pre :
    major a = major b -> minor a = minor b -> patch a = patch b ->
    pre_precedes (prerelease a) (prerelease b) -> precedes a b.

(** The syntax-change threshold T1 and the next-generation threshold T2. *)
Definition T1 : SemVer := mkSemVer 6 41 0 [] [].
Definition T2 : N := 7.

End SemverOrder.

(** The two flags of a parsed version. *)
Definition newSyntaxOf (sv : Semver.SemVer) : bool :=
  match Semver.compareSemVer sv SemverOrder.T1 with
  | Lt => false
  | _ => true
  end.

Definition nextGenOf (sv : Semver.SemVer) : bool := (7 <=? Semver.major sv)%N.

(** ** CommandBuilder, in the words of the specification *)

Definition executableSuffix (nextGen : bool) (platform : string) : string :=
  (if platform =? "win32" then "\bin\pmd.bat"
   else if nextGen then "/bin/pmd" else "/bin/run.sh pmd")
  ++ (if nextGen then " check --no-progress" else "").

Definition noCacheFlag (newSyntax : bool) : string :=
  if newSyntax then "--no-cache" else "-no-cache".

Definition sourceFlags (newSyntax : bool) (sel : SourceSelector)
  : list string :=
  match sel with
  | SourcePath p => ["-d"; p]
  | FileList _ => [if newSyntax then "--file-list" else "-filelist";
                   "pmd.filelist"]
  end.

Definition argumentVector (newSyntax : bool) (sel : SourceSelector)
    (ruleset reportFormat reportFile minimumPriority : string)
  : list string :=
  ([noCacheFlag newSyntax] ++ sourceFlags newSyntax sel
     ++ ["-f"; reportFormat] ++ ["-R"; ruleset] ++ ["-r"; reportFile]
     ++ ["--minimum-priority"; minimumPriority])%list.

(** The one launch [executePmd] makes. *)
Definition launch (env : Env) (pmdInfo : PmdInfo) (nextGen newSyntax : bool)
    (sel : SourceSelector)
    (ruleset reportFormat reportFile minimumPriority : string) : Event :=
  ExecGetExecOutput
    (path pmdInfo ++ executableSuffix nextGen (getPlatform env))
    (argumentVector newSyntax sel ruleset reportFormat reportFile
       minimumPriority)
    true.

Definition answer (svc : Services) (e : Event) : result ExecOutput :=
  match e with
  | ExecGetExecOutput c a i => exec_getExecOutput svc c a i
  | _ => Throw (Error "not a launch")
  end.

(** The write of the file list. *)
Definition fileListWrite {P : PathModule} (l : list string) : Event :=
  FsWriteFile (join ["."; "pmd.filelist"]) (Js.join "," l) "utf8".

(** An asset named after one of the two conventions of the binary
    distribution. *)
Definition distributionAsset (version : string) (a : Asset) : Prop :=
  name a = "pmd-bin-" ++ version ++ ".zip"
  \/ name a = "pmd-dist-" ++ version ++ "-bin.zip".

(** ** ChangeSetResolver, in the words of the specification *)

(** [f] is equal to or nested under [sourcePath]: the path is the
    current-directory sentinel, or [f] begins with the normalized path
    followed by a separator. *)
Definition underSourcePath {P : PathModule} (sourcePath f : string) : bool :=
  let prefix :=
    if negb (sourcePath =? ".") then normalize (sourcePath ++ "/")
    else sourcePath in
  (prefix =? ".") || String.prefix prefix f.

(** Per-page filtering: keep the entries whose status is added, changed or
    modified, normalize each filename, keep the names under [sourcePath]. *)
Definition keptNames {P : PathModule} (sourcePath : string)
    (entries : list DiffEntry) : list string :=
  filter (underSourcePath sourcePath)
    (map (fun e => normalize (filename e))
       (filter
          (fun e =>
             match status e with
             | added | changed | modified => true
             | _ => false
             end)
          entries)).

(** The sequence with every repetition after the first struck out. *)
Fixpoint firstOccurrences (l : list string) : list string :=
  match l with
  | [] => []
  | x :: r => x :: filter (fun y => negb (y =? x)) (firstOccurrences r)
  end.

(** The client [determineModifiedFiles] creates. *)
Definition apiClient (env : Env) (token : string) : Octokit :=
  if jest env then mkOctokit (defaults_baseUrl env) (Some token) true
  else mkOctokit (defaults_baseUrl env) (Some ("token " ++ token)) false.

(** The request for one page, and its answer with an absent file list
    made explicit, in the [pull_request] and in the [push] branch. *)
Definition pullRequestRequest (env : Env) (context : Context) (token : string)
    (page : nat) : Event :=
  PullsListFiles (apiClient env token) (context_repo context)
    (number context) 30 page.

Definition pullRequestPage (svc : Services) (env : Env) (context : Context)
    (token : string) (page : nat) : result (option (list DiffEntry)) :=
  match pulls_listFiles svc (apiClient env token) (context_repo context)
          (number context) 30 page with
  | Ok l => Ok (Some l)
  | Throw e => Throw e
  end.

Definition pushRequest (env : Env) (context : Context) (token : string)
    (page : nat) : Event :=
  CompareCommitsWithBasehead (apiClient env token) (context_repo context)
    (before context ++ "..." ++ after context) 30 page.

Definition pushPage (svc : Services) (env : Env) (context : Context)
    (token : string) (page : nat) : result (option (list DiffEntry)) :=
  repos_compareCommitsWithBasehead svc (apiClient env token)
    (context_repo context) (before context ++ "..." ++ after context) 30 page.

(** The two pagination loops as one, over the request [req] and the
    answers [resp]. *)
Fixpoint pageLoop {P : PathModule} (req : nat -> Event)
    (resp : nat -> result (option (list DiffEntry))) (sourcePath : string)
    (fuel page : nat) (modifiedFilenames : list string)
  : M (nat * list string) :=
  match fuel with
  | O => ret (page, modifiedFilenames)
  | S fuel =>
      if (page <=? MAX_PAGE)%nat then
        files <- call (req page) (resp page) ;;
        match files with
        | None | Some [] => ret (page, modifiedFilenames)
        | Some allFiles =>
            pageLoop req resp sourcePath fuel (S page)
              (fold_left Set_add (keptNames sourcePath allFiles)
                 modifiedFilenames)
        end
      else ret (page, modifiedFilenames)
  end.

(** The non-empty pages answered without failure, from [page] on and at
    most [n] of them: what a loop reads before it stops. *)
Fixpoint readPages (resp : nat -> result (option (list DiffEntry)))
    (n page : nat) : list (list DiffEntry) :=
  match n with
  | O => []
  | S n =>
      match resp page with
      | Ok (Some (e :: l)) => (e :: l) :: readPages resp n (S page)
      | _ => []
      end
  end.

(** A page that stops the loop: no entries, or no file list at all. *)
Definition emptyPage (r : result (option (list DiffEntry))) : Prop :=
  r = Ok None \/ r = Ok (Some []).

Definition fullPage (r : result (option (list DiffEntry))) : Prop :=
  exists e l, r = Ok (Some (e :: l)).

Definition pullRequestWarning (context : Context) : Event :=
  CoreWarning
    ("The pull request " ++ Js.of_N (number context)
     ++ " is too big - not all changed files will be analyzed!").

Definition pushWarning (context : Context) : Event :=
  CoreWarning
    ("The push on " ++ ref context
     ++ " is too big - not all changed files will be analyzed!").

(** The pagination loop in closed form, with [n] pages left from [page]
    on: it reads the pages of [readPages], adds their names to the set,
    and stops at the page after them, which is beyond the last page, empty,
    or a failed request. *)
Definition loopOutcome {P : PathModule} (req : nat -> Event)
    (resp : nat -> result (option (list DiffEntry))) (sourcePath : string)
    (n page : nat) (modifiedFilenames : list string) : M (nat * list string) :=
  let read := readPages resp n page in
  let k := List.length read in
  let names :=
    fold_left Set_add (concat (map (keptNames sourcePath) read))
      modifiedFilenames in
  if (k =? n)%nat then (Ok (page + n, names), map req (seq page n))
  else
    (match resp (page + k) with
     | Throw e => Throw e
     | Ok _ => Ok (page + k, names)
     end,
     map req (seq page (S k))).

(** What follows the loop: the warning when the page counter has reached
    [MAX_PAGE], and the set as an array. *)
Definition finish (warning : Event) (loop : M (nat * list string))
  : M (option (list string)) :=
  '(page, modifiedFilenames) <- loop ;;
  (if (MAX_PAGE <=? page)%nat then call warning (Ok tt) else ret tt) ;;;
  ret (Some modifiedFilenames).

(** The request, the answers and the warning of the branch that the event
    kind selects. *)
Definition requestOf (env : Env) (context : Context) (token : string)
  : nat -> Event :=
  if eventName context =? "pull_request"
  then pullRequestRequest env context token
  else pushRequest env context token.

Definition answersOf (svc : Services) (env : Env) (context : Context)
    (token : string) : nat -> result (option (list DiffEntry)) :=
  if eventName context =? "pull_request"
  then pullRequestPage svc env context token
  else pushPage svc env context token.

Definition warningOf (context : Context) : Event :=
  if eventName context =? "pull_request" then pullRequestWarning context
  else pushWarning context.

(** The outcome of a resolution over the answers [resp]. *)
Definition resolution {P : PathModule} (warning : Event) (req : nat -> Event)
    (resp : nat -> result (option (list DiffEntry))) (sourcePath : string)
  : M (option (list string)) :=
  let read := readPages resp MAX_PAGE 1 in
  let k := List.length read in
  let names := firstOccurrences (concat (map (keptNames sourcePath) read)) in
  if (k =? MAX_PAGE)%nat then
    (Ok (Some names), (map req (seq 1 MAX_PAGE) ++ [warning])%list)
  else
    match resp (S k) with
    | Throw e => (Throw e, map req (seq 1 (S k)))
    | Ok _ =>
        (Ok (Some names),
         (map req (seq 1 (S k))
            ++ (if (MAX_PAGE <=? S k)%nat then [warning] else []))%list)
    end.

(** An entry whose status is one of the three that are kept. *)
Definition kept (e : DiffEntry) : Prop :=
  status e = added \/ status e = changed \/ status e = modified.

(** ** Sample surroundings, for running the functions on concrete inputs *)

Module Sample.

(** Services that always succeed; the two diff APIs answer from [pages]. *)
Definition services (pages : nat -> list DiffEntry) : Services := {|
  tc_find := fun _ _ => Ok "";
  tc_downloadTool := fun _ => Ok "/tmp/pmd.zip";
  tc_extractZip := fun _ => Ok "/tmp/pmd";
  tc_cacheDir := fun _ _ _ => Ok "/cache/pmd";
  fs_readdir := fun _ => Ok ["pmd-bin"];
  fs_writeFile := fun _ _ _ => Ok tt;
  exec_getExecOutput := fun _ _ _ => Ok (mkExecOutput 0 "" "");
  repos_getLatestRelease := fun _ _ => Ok (mkRelease "pmd_releases/7.0.0" []);
  repos_getReleaseByTag := fun _ _ _ => Ok (mkRelease "pmd_releases/7.0.0" []);
  pulls_listFiles := fun _ _ _ _ page => Ok (pages page);
  repos_compareCommitsWithBasehead :=
    fun _ _ _ _ page => Ok (Some (pages page))
|}.

Definition no_pages : nat -> list DiffEntry := fun _ => [].

Definition linux : Env := mkEnv PUBLIC_GITHUB_API_URL None "linux".
Definition windows : Env := mkEnv PUBLIC_GITHUB_API_URL None "win32".

Definition event (kind : string) : Context :=
  mkContext kind (mkRepo "pmd" "pmd-github-action-tests") 1
    "refs/heads/main" "44c1557" "8a7a256".

Definition page1 : list DiffEntry :=
  [mkDiffEntry "src/main/java/AvoidCatchingThrowableSample.java" modified;
   mkDiffEntry "src/main/java/DeleteFile.java" removed;
   mkDiffEntry "src/main/java/NewFile.java" added;
   mkDiffEntry "src/main/java/ChangedFile.java" changed;
   mkDiffEntry "README.md" modified;
   mkDiffEntry "src/main/java2/NewFile.java" added;
   mkDiffEntry "src/main/java/./NewFile.java" modified;
   mkDiffEntry "src/main/java/Renamed.java" renamed].

(** Page 1 has entries, every later page is empty. *)
Definition one_page (page : nat) : list DiffEntry :=
  match page with
  | 1 => page1
  | _ => []
  end.

(** Every page has the same entries. *)
Definition endless (page : nat) : list DiffEntry := page1.

(** Pages 1 to 9 have entries, page 10 is empty. *)
Definition nine_pages (page : nat) : list DiffEntry :=
  if (page <=? 9)%nat then page1 else [].

End Sample.

(** * Further definitions *)

(** ** ArtifactResolver *)

(** The client of the release registry: always the public endpoint, with
    the token only when the default endpoint is the public one. *)
Definition registryClient (env : Env) (token : string) : Octokit :=
  mkOctokit PUBLIC_GITHUB_API_URL
    (if defaults_baseUrl env =? PUBLIC_GITHUB_API_URL then Some token
     else None)
    (jest env).

(** The lookup of a release and its answer. *)
Definition registryLookup (env : Env) (token version : string) : Event :=
  if version =? "latest"
  then GetLatestRelease (registryClient env token) (mkRepo "pmd" "pmd")
  else GetReleaseByTag (registryClient env token) (mkRepo "pmd" "pmd")
         ("pmd_releases/" ++ version).

Definition registryAnswer (svc : Services) (env : Env) (token version : string)
  : result Release :=
  if version =? "latest"
  then repos_getLatestRelease svc (registryClient env token)
         (mkRepo "pmd" "pmd")
  else repos_getReleaseByTag svc (registryClient env token)
         (mkRepo "pmd" "pmd") ("pmd_releases/" ++ version).

(** No download URL given: [undefined] or the empty string. *)
Definition noDownloadUrl (downloadUrl : option string) : Prop :=
  downloadUrl = None \/ downloadUrl = Some "".

Module Fixture.

(** A registry that knows the release 7.0.0-rc3 and an empty tool cache. *)
Definition release : Release :=
  mkRelease "pmd_releases/7.0.0-rc3"
    [mkAsset "pmd-dist-7.0.0-rc3-src.zip" "https://github.com/pmd/src.zip";
     mkAsset "pmd-dist-7.0.0-rc3-bin.zip" "https://github.com/pmd/bin.zip"].

Definition services (cached : string) (files : list string) : Services := {|
  tc_find := fun _ _ => Ok cached;
  tc_downloadTool := fun _ => Ok "/tmp/pmd.zip";
  tc_extractZip := fun _ => Ok "/tmp/pmd";
  tc_cacheDir := fun _ _ _ => Ok "/cache/pmd/7.0.0-rc3/x64";
  fs_readdir := fun _ => Ok files;
  fs_writeFile := fun _ _ _ => Throw (ServiceError "EACCES");
  exec_getExecOutput := fun _ _ _ => Ok (mkExecOutput 4 "" "");
  repos_getLatestRelease := fun _ _ => Ok release;
  repos_getReleaseByTag := fun _ _ _ => Ok release;
  pulls_listFiles :=
    fun _ _ _ _ page =>
      if (page <=? 2)%nat then Ok Sample.page1
      else Throw (ServiceError "502");
  repos_compareCommitsWithBasehead :=
    fun _ _ _ _ page => if (page <=? 1)%nat then Ok (Some Sample.page1) else Ok None
|}.

Definition enterprise : Env := mkEnv "https://ghe.example.com/api/v3" None "linux".

End Fixture.

(** ** [src/validator.ts] *)

Module SemverValid.

(** [SemVer.format()]: the version without its build metadata. *)
Definition format (v : Semver.SemVer) : string :=
  let version :=
    Js.of_N (Semver.major v) ++ "." ++ Js.of_N (Semver.minor v) ++ "."
    ++ Js.of_N (Semver.patch v) in
  match Semver.prerelease v with
  | [] => version
  | prerelease => version ++ "-" ++ Js.join "." prerelease
  end.

(** [semver.valid(version)]: the formatted version, or [null] when the
    constructor throws. *)
Definition valid (version : string) : option string :=
  match Semver.parse version with
  | Ok v => Some (format v)
  | Throw _ => None
  end.

End SemverValid.

Module Validator.

Definition validateVersion (version : string) : result string :=
  if (version =? "latest")
     || match SemverValid.valid version with
        | Some v => v =? version
        | None => false
        end
  then Ok version
  else Throw (Error "Invalid version").

(** [re.test(s)] for a character class [re]. *)
Fixpoint matches (class : ascii -> bool) (s : string) : bool :=
  match s with
  | EmptyString => false
  | String a r => class a || matches class r
  end.

(** The character class of [validateRulesets]: the semicolon, the colon,
    the double quote (code 34), the single quote and the dollar sign. *)
Definition rulesetsClass (a : ascii) : bool :=
  existsb (Ascii.eqb a) [";"; ":"; ascii_of_nat 34; "'"; "$"]%char.

(** [s.replace(/ /g, '')] *)
Fixpoint removeSpaces (s : string) : string :=
  match s with
  | EmptyString => EmptyString
  | String a r =>
      if Ascii.eqb a " " then removeSpaces r else String a (removeSpaces r)
  end.

Definition validateRulesets (rulesets : string) : result string :=
  if matches rulesetsClass rulesets then Throw (Error "Invalid rulesets")
  else
    let normalized := removeSpaces rulesets in
    Ok normalized.

End Validator.

(** ** [src/sarif.ts]

    A report file holds a SARIF log; [JSON.parse] and [JSON.stringify]
    are the boundary of the model, so a file is absent, unreadable, or
    holds a log.  Of a log only what the functions read is spelled out;
    the rest of a result and of a run is carried along unread. *)

Module Sarif.

Section Log.

Variables ResultProps Location RunProps : Type.

Record Result : Type := mkResult {
  resultProps : ResultProps;
  locations : option (list Location)
}.

(** A run: [tool.driver.version], [results], and the rest. *)
Record Run : Type := mkRun {
  tool_driver_version : option string;
  results : option (list Result);
  runProps : RunProps
}.

Record Log : Type := mkLog {
  runs : list Run
}.

(** The report files: no file, a file that cannot be read as JSON, or a
    log. *)
Definition Files : Type := string -> option (result Log).

Definition writeFileSync (files : Files) (file : string) (report : Log)
  : Files :=
  fun f => if f =? file then Some (Ok report) else files f.

Definition loadReport (files : Files) (reportFile : string)
  : result (option Log) :=
  match files reportFile with
  | None => Ok None
  | Some (Throw e) => Throw e
  | Some (Ok report) => Ok (Some report)
  end.

Definition countViolations (files : Files) (reportFile : string)
  : result nat :=
  let count := 0 in
  match loadReport files reportFile with
  | Throw e => Throw e
  | Ok None => Ok count
  | Ok (Some report) =>
      match runs report with
      | [] =>
          Throw (TypeError
                   "Cannot read properties of undefined (reading 'results')")
      | run :: _ =>
          match results run with
          | Some l => Ok (if (List.length l =? 0)%nat then 0 else List.length l)
          | None => Ok 0
          end
      end
  end.

(** [originalResults?.forEach(...)] of [fixResults]: for every location
    of every result, a copy of the result without its locations, with that
    location alone, is pushed to [fixedResults]. *)
Definition forEachResult (originalResults : option (list Result))
    (fixedResults : list Result) : list Result :=
  match originalResults with
  | None => fixedResults
  | Some originalResults =>
      fold_left
        (fun fixedResults result =>
           match locations result with
           | None => fixedResults
           | Some originalLocations =>
               fold_left
                 (fun fixedResults location =>
                    (fixedResults
                       ++ [mkResult (resultProps result) (Some [location])])%list)
                 originalLocations fixedResults
           end)
        originalResults fixedResults
  end.

(** [fixResults]: the files after the call, or what it throws. *)
Definition fixResults (files : Files) (reportFile : string) : result Files :=
  match loadReport files reportFile with
  | Throw e => Throw e
  | Ok None => Ok files
  | Ok (Some report) =>
      match runs report with
      | [] =>
          Throw (TypeError
                   "Cannot read properties of undefined (reading 'tool')")
      | run :: otherRuns =>
          match tool_driver_version run with
          | None => Ok files
          | Some pmdVersion =>
              if pmdVersion =? "" then Ok files
              else
                match Semver.gte pmdVersion "6.43.0" with
                | Throw e => Throw e
                | Ok true => Ok files
                | Ok false =>
                    let originalResults := results run in
                    let fixedResults := forEachResult originalResults [] in
                    let report :=
                      mkLog
                        (mkRun (tool_driver_version run) (Some fixedResults)
                           (runProps run)
                         :: otherRuns) in
                    Ok (writeFileSync files reportFile report)
                end
          end
      end
  end.

(** One result for each location of a result, in the words of the
    comment of [fixResults]: each violation a separate result. *)
Definition separateResults (originalResults : option (list Result))
  : list Result :=
  match originalResults with
  | None => []
  | Some l =>
      flat_map
        (fun r =>
           match locations r with
           | None => []
           | Some ls => map (fun x => mkResult (resultProps r) (Some [x])) ls
           end)
        l
  end.

(** The number of locations in the results of a run. *)
Definition locationCount (originalResults : option (list Result)) : nat :=
  match originalResults with
  | None => 0
  | Some l =>
      list_sum
        (map (fun r => match locations r with
                       | None => 0
                       | Some ls => List.length ls
                       end) l)
  end.

End Log.

Arguments mkResult {ResultProps Location} _ _.
Arguments resultProps {ResultProps Location} _.
Arguments locations {ResultProps Location} _.
Arguments mkRun {ResultProps Location RunProps} _ _ _.
Arguments tool_driver_version {ResultProps Location RunProps} _.
Arguments results {ResultProps Location RunProps} _.
Arguments runProps {ResultProps Location RunProps} _.
Arguments mkLog {ResultProps Location RunProps} _.
Arguments runs {ResultProps Location RunProps} _.
Arguments writeFileSync {ResultProps Location RunProps} _ _ _.
Arguments loadReport {ResultProps Location RunProps} _ _.
Arguments countViolations {ResultProps Location RunProps} _ _.
Arguments forEachResult {ResultProps Location} _ _.
Arguments separateResults {ResultProps Location} _.
Arguments fixResults {ResultProps Location RunProps} _ _.
Arguments locationCount {ResultProps Location} _.

(** A report of PMD 6.40.0 with two violations of one rule in one result,
    a result of another rule, and two results without location. *)
Definition report : Log string string string :=
  mkLog
    [mkRun (Some "6.40.0")
       (Some [mkResult "UnusedLocalVariable"
                (Some ["src/A.java:3"; "src/A.java:9"]);
              mkResult "EmptyCatchBlock" (Some ["src/B.java:7"]);
              mkResult "Note" None;
              mkResult "Summary" (Some [])])
       "PMD"].

Definition files : Files string string string :=
  fun f => if f =? "pmd-report.sarif" then Some (Ok report) else None.

(** Version 6.43.0, from which on the reports need no fix. *)
Definition fixedSince : Semver.SemVer := Semver.mkSemVer 6 43 0 [] [].

End Sarif.

(** ** Proof automation *)

(** Case analysis on the answers of the tool cache and the file system
    that a run depends on. *)
Ltac answers H :=
  repeat match type of H with
         | context [match tc_downloadTool ?s ?u with _ => _ end] =>
             destruct (tc_downloadTool s u); cbn in H
         | context [match tc_extractZip ?s ?z with _ => _ end] =>
             destruct (tc_extractZip s z); cbn in H
         | context [match tc_cacheDir ?s ?d ?t ?v with _ => _ end] =>
             destruct (tc_cacheDir s d t v); cbn in H
         | context [match fs_readdir ?s ?d with _ => _ end] =>
             destruct (fs_readdir s d) as [[| ? ?] |]; cbn in H
         end.

(** * Properties *)

(** ** The models of [semver] and [path] on known inputs *)

Example useNewArgsFormat_6_40 : useNewArgsFormat "6.40.0" = Ok false.
Proof. reflexivity. Qed.
Example useNewArgsFormat_6_41 : useNewArgsFormat "6.41.0" = Ok true.
Proof. reflexivity. Qed.
Example useNewArgsFormat_6_41_rc : useNewArgsFormat "6.41.0-rc1" = Ok false.
Proof. reflexivity. Qed.
Example useNewArgsFormat_7_rc : useNewArgsFormat "7.0.0-rc1" = Ok true.
Proof. reflexivity. Qed.
Example useNewArgsFormat_latest :
  useNewArgsFormat "latest" = Throw (TypeError "Invalid Version: latest").
Proof. reflexivity. Qed.
Example isPmd7Cli_6_55 : isPmd7Cli "6.55.0" = Ok false.
Proof. reflexivity. Qed.
Example isPmd7Cli_7_snapshot : isPmd7Cli "7.0.0-SNAPSHOT" = Ok true.
Proof. reflexivity. Qed.
Example isPmd7Cli_7_1 : isPmd7Cli "7.1.0" = Ok true.
Proof. reflexivity. Qed.

Example normalize_trailing :
  PosixPath.normalize "src/main/java/" = "src/main/java/".
Proof. reflexivity. Qed.
Example normalize_double :
  PosixPath.normalize "src/main/java//" = "src/main/java/".
Proof. reflexivity. Qed.
Example normalize_dots : PosixPath.normalize "./a/../b/./c.txt" = "b/c.txt".
Proof. reflexivity. Qed.
Example normalize_above : PosixPath.normalize "a/../../x" = "../x".
Proof. reflexivity. Qed.
Example normalize_abs_above : PosixPath.normalize "/../x/" = "/x/".
Proof. reflexivity. Qed.
Example normalize_dot_slash : PosixPath.normalize ".//" = "./".
Proof. reflexivity. Qed.
Example join_filelist : PosixPath.join ["."; "pmd.filelist"] = "pmd.filelist".
Proof. reflexivity. Qed.
Example join_cache :
  PosixPath.join ["/cache/pmd/7.0.0/x64"; "pmd-bin-7.0.0"]
  = "/cache/pmd/7.0.0/x64/pmd-bin-7.0.0".
Proof. reflexivity. Qed.

(** ** VersionPolicy *)

Lemma parse_T1 : Semver.parse "6.41.0" = Ok SemverOrder.T1.
Proof. reflexivity. Qed.

Lemma compareMain_Lt a b :
  Semver.compareMain a b = Lt <->
  (Semver.major a < Semver.major b)%N
  \/ (Semver.major a = Semver.major b /\ (Semver.minor a < Semver.minor b)%N)
  \/ (Semver.major a = Semver.major b /\ Semver.minor a = Semver.minor b
      /\ (Semver.patch a < Semver.patch b)%N).
Proof.
  unfold Semver.compareMain.
  destruct (N.compare_spec (Semver.major a) (Semver.major b)) as [Hm | Hm | Hm];
    [ destruct (N.compare_spec (Semver.minor a) (Semver.minor b))
        as [Hn | Hn | Hn];
      [ destruct (N.compare_spec (Semver.patch a) (Semver.patch b))
          as [Hp | Hp | Hp] | | ]
    | | ];
    split; intros H; try discriminate; try tauto; lia.
Qed.

Lemma compareMain_Eq a b :
  Semver.compareMain a b = Eq <->
  Semver.major a = Semver.major b /\ Semver.minor a = Semver.minor b
  /\ Semver.patch a = Semver.patch b.
Proof.
  unfold Semver.compareMain.
  destruct (N.compare_spec (Semver.major a) (Semver.major b)) as [Hm | Hm | Hm];
    [ destruct (N.compare_spec (Semver.minor a) (Semver.minor b))
        as [Hn | Hn | Hn];
      [ destruct (N.compare_spec (Semver.patch a) (Semver.patch b))
          as [Hp | Hp | Hp] | | ]
    | | ];
    split; intros H; try discriminate; try tauto; lia.
Qed.

Lemma compare_refl s : String.compare s s = Eq.
Proof.
  induction s as [| a s IH]; simpl; trivial.
  unfold Ascii.compare. now rewrite N.compare_refl.
Qed.

Lemma identifier_lt_irrefl x : ~ SemverOrder.identifier_lt x x.
Proof.
  intros [Ha Hb Hlt | Ha Hb | Ha Hb Hlt].
  - lia.
  - congruence.
  - rewrite compare_refl in Hlt. discriminate.
Qed.

Lemma compareIdentifiers_Lt x y :
  x <> y -> (Semver.compareIdentifiers x y = Lt <-> SemverOrder.identifier_lt x y).
Proof.
  intros Hne. unfold Semver.compareIdentifiers. cbv zeta.
  apply String.eqb_neq in Hne. rewrite Hne.
  destruct (Js.numeric x) eqn:Hx, (Js.numeric y) eqn:Hy; cbn.
  - rewrite N.compare_lt_iff. split.
    + intros H. now apply SemverOrder.identifier_lt_numeric.
    + intros [_ _ H | _ H | H _ _]; trivial; congruence.
  - split; trivial. intros _. now apply SemverOrder.identifier_lt_mixed.
  - split; [discriminate |].
    intros [H _ _ | H _ | _ H _]; congruence.
  - unfold String.ltb. destruct (String.compare x y) eqn:Hc; split;
      try discriminate; trivial.
    + intros [H _ _ | H _ | _ _ H]; congruence.
    + intros _. now apply SemverOrder.identifier_lt_ascii.
    + intros [H _ _ | H _ | _ _ H]; congruence.
Qed.

Lemma comparePreLoop_Lt a b :
  Semver.comparePreLoop a b = Lt <-> SemverOrder.prerelease_lt a b.
Proof.
  revert b. induction a as [| x a IH]; intros [| y b]; simpl.
  - split; [discriminate | intros H; inversion H].
  - split; [constructor | trivial].
  - split; [discriminate | intros H; inversion H].
  - destruct (String.eqb_spec x y) as [-> | Hne].
    + rewrite IH. split.
      * apply SemverOrder.prerelease_lt_tail.
      * intros H. inversion H; subst; trivial.
        now destruct (identifier_lt_irrefl y).
    + rewrite (compareIdentifiers_Lt x y Hne). split.
      * apply SemverOrder.prerelease_lt_head.
      * intros H. inversion H; subst; trivial. congruence.
Qed.

Lemma comparePre_Lt a b :
  Semver.comparePre a b = Lt <->
  SemverOrder.pre_precedes (Semver.prerelease a) (Semver.prerelease b).
Proof.
  unfold Semver.comparePre, SemverOrder.pre_precedes.
  destruct (Semver.prerelease a) as [| x pa], (Semver.prerelease b) as [| y pb].
  - split; [discriminate | intros [H _]; congruence].
  - split; [discriminate | intros [H _]; congruence].
  - split; [intros _; split; [discriminate | now left] | trivial].
  - rewrite comparePreLoop_Lt. split.
    + intros H. split; [discriminate | now right].
    + intros [_ [H | H]]; [discriminate | exact H].
Qed.

(** The comparison of the package decides precedence. *)
Lemma compareSemVer_Lt a b :
  Semver.compareSemVer a b = Lt <-> SemverOrder.precedes a b.
Proof.
  unfold Semver.compareSemVer. split.
  - destruct (Semver.compareMain a b) eqn:Hc; intros H; try discriminate.
    + apply compareMain_Eq in Hc. destruct Hc as (Hm & Hn & Hp).
      apply SemverOrder.precedes_pre; trivial. now apply comparePre_Lt.
    + apply compareMain_Lt in Hc.
      destruct Hc as [Hc | [[Hm Hc] | (Hm & Hn & Hc)]];
        eauto using SemverOrder.precedes_major, SemverOrder.precedes_minor,
          SemverOrder.precedes_patch.
  - intros [Hm | Hm Hn | Hm Hn Hp | Hm Hn Hp Hpre].
    + replace (Semver.compareMain a b) with Lt; trivial.
      symmetry. apply compareMain_Lt. tauto.
    + replace (Semver.compareMain a b) with Lt; trivial.
      symmetry. apply compareMain_Lt. tauto.
    + replace (Semver.compareMain a b) with Lt; trivial.
      symmetry. apply compareMain_Lt. tauto.
    + replace (Semver.compareMain a b) with Eq.
      * now apply comparePre_Lt.
      * symmetry. apply compareMain_Eq. tauto.
Qed.

Lemma useNewArgsFormat_parsed v sv :
  Semver.parse v = Ok sv -> useNewArgsFormat v = Ok (newSyntaxOf sv).
Proof.
  intros H. unfold useNewArgsFormat, Semver.gte.
  rewrite H, parse_T1. reflexivity.
Qed.

Lemma isPmd7Cli_parsed v sv :
  Semver.parse v = Ok sv -> isPmd7Cli v = Ok (nextGenOf sv).
Proof.
  intros H. unfold isPmd7Cli, Semver.major_of. now rewrite H.
Qed.

(** C3.  For every version string [v] that the package accepts:
    [useNewArgsFormat v] is false when [v] precedes 6.41.0 and true when it
    does not (that is, when [v >= 6.41.0]); [isPmd7Cli v] is false when the
    major version of [v] is below 7 and true when it is 7 or more. *)
Theorem C3_version_policy_thresholds (v : string) (sv : Semver.SemVer)
    (Hvalid : Semver.parse v = Ok sv) :
  (SemverOrder.precedes sv SemverOrder.T1 -> useNewArgsFormat v = Ok false)
  /\ (~ SemverOrder.precedes sv SemverOrder.T1 -> useNewArgsFormat v = Ok true)
  /\ ((Semver.major sv < SemverOrder.T2)%N -> isPmd7Cli v = Ok false)
  /\ ((SemverOrder.T2 <= Semver.major sv)%N -> isPmd7Cli v = Ok true).
Proof.
  rewrite (useNewArgsFormat_parsed v sv Hvalid), (isPmd7Cli_parsed v sv Hvalid).
  unfold SemverOrder.T2, newSyntaxOf, nextGenOf. repeat split.
  - intros Hlt. apply compareSemVer_Lt in Hlt. now rewrite Hlt.
  - intros Hge.
    destruct (Semver.compareSemVer sv SemverOrder.T1) eqn:Hc; trivial.
    now apply compareSemVer_Lt in Hc.
  - intros Hlt. f_equal. apply N.leb_gt. exact Hlt.
  - intros Hge. f_equal. apply N.leb_le. exact Hge.
Qed.

Lemma C3_witness :
  Semver.parse "6.41.0-rc1" = Ok (Semver.mkSemVer 6 41 0 ["rc1"] [])
  /\ useNewArgsFormat "6.41.0-rc1" = Ok false
  /\ isPmd7Cli "6.41.0-rc1" = Ok false.
Proof.
  split; [reflexivity |].
  destruct (C3_version_policy_thresholds "6.41.0-rc1"
              (Semver.mkSemVer 6 41 0 ["rc1"] []) eq_refl)
    as (Hlt & _ & Hmaj & _).
  split.
  - apply Hlt. apply SemverOrder.precedes_pre; simpl; trivial.
    split; [discriminate | now left].
  - apply Hmaj. reflexivity.
Defined.

(** ** CommandBuilder *)

(** What [executePmd] does for a version the package accepts. *)
Lemma executePmd_valid {P : PathModule} svc env pmdInfo sel ruleset
    reportFormat reportFile minimumPriority sv :
  Semver.parse (version pmdInfo) = Ok sv ->
  let e := launch env pmdInfo (nextGenOf sv) (newSyntaxOf sv) sel ruleset
             reportFormat reportFile minimumPriority in
  executePmd svc env pmdInfo sel ruleset reportFormat reportFile
    minimumPriority
  = match sel with
    | SourcePath _ => (answer svc e, [e])
    | FileList l =>
        match fs_writeFile svc (join ["."; "pmd.filelist"]) (Js.join "," l)
                "utf8" with
        | Ok _ => (answer svc e, [fileListWrite l; e])
        | Throw err => (Throw err, [fileListWrite l])
        end
    end.
Proof.
  intros Hvalid. unfold executePmd, launch, executableSuffix. cbn zeta.
  rewrite (isPmd7Cli_parsed _ sv Hvalid), (useNewArgsFormat_parsed _ sv Hvalid).
  unfold lift, bind, call, ret, writeFileList, answer, argumentVector,
    noCacheFlag, sourceFlags, fileListWrite.
  destruct sel as [p | l].
  - destruct (nextGenOf sv), (getPlatform env =? "win32"); reflexivity.
  - destruct (fs_writeFile svc _ _ _) as [[] | err].
    + destruct (nextGenOf sv), (getPlatform env =? "win32"); reflexivity.
    + reflexivity.
Qed.


(** Every launch in the trace of a run is the one [launch] describes. *)
Lemma executePmd_launches {P : PathModule} svc env pmdInfo sel ruleset
    reportFormat reportFile minimumPriority sv cmd args irc :
  Semver.parse (version pmdInfo) = Ok sv ->
  In (ExecGetExecOutput cmd args irc)
     (trace (executePmd svc env pmdInfo sel ruleset reportFormat reportFile
               minimumPriority)) ->
  ExecGetExecOutput cmd args irc
  = launch env pmdInfo (nextGenOf sv) (newSyntaxOf sv) sel ruleset
      reportFormat reportFile minimumPriority.
Proof.
  intros Hvalid Hin.
  rewrite (executePmd_valid svc env pmdInfo sel ruleset reportFormat
             reportFile minimumPriority sv Hvalid) in Hin.
  destruct sel as [p | l].
  - cbn in Hin. destruct Hin as [Heq | []]. now symmetry.
  - destruct (fs_writeFile svc _ _ _) as [u | err]; cbn in Hin.
    + destruct Hin as [Heq | [Heq | []]]; [discriminate | now symmetry].
    + destruct Hin as [Heq | []]. discriminate.
Qed.

(** C2.  For every version the package accepts, every launch [executePmd]
    makes carries the arguments in the fixed order: the no-cache flag, the
    source-selector flags, [-f reportFormat], [-R ruleset], [-r reportFile],
    [--minimum-priority minimumPriority]; with an explicit path the launch
    is made.  For version 6.40.0, path [.], ruleset [ruleset.xml], format
    [sarif], report [pmd-report.sarif] and priority [5] the arguments are
    [-no-cache -d . -f sarif -R ruleset.xml -r pmd-report.sarif
    --minimum-priority 5]; for version 6.41.0 the first one is
    [--no-cache]. *)
Theorem C2_argument_vector_order {P : PathModule} (svc : Services) (env : Env)
    (pmdInfo : PmdInfo) (sel : SourceSelector)
    (ruleset reportFormat reportFile minimumPriority : string)
    (sv : Semver.SemVer)
    (Hvalid : Semver.parse (version pmdInfo) = Ok sv) :
  let run := executePmd svc env pmdInfo sel ruleset reportFormat reportFile
               minimumPriority in
  let argv := fun newSyntax : bool =>
    ((if newSyntax then "--no-cache" else "-no-cache")
       :: sourceFlags newSyntax sel
       ++ ["-f"; reportFormat; "-R"; ruleset; "-r"; reportFile;
           "--minimum-priority"; minimumPriority])%list in
  (exists newSyntax,
      useNewArgsFormat (version pmdInfo) = Ok newSyntax
      /\ (forall cmd args irc,
             In (ExecGetExecOutput cmd args irc) (trace run) ->
             args = argv newSyntax)
      /\ (forall p, sel = SourcePath p ->
             exists cmd,
               trace run = [ExecGetExecOutput cmd (argv newSyntax) true]))
  /\ (forall toolPath,
         exists cmd,
           trace (executePmd svc env (mkPmdInfo "6.40.0" toolPath)
                    (SourcePath ".") "ruleset.xml" "sarif" "pmd-report.sarif"
                    "5")
           = [ExecGetExecOutput cmd
                ["-no-cache"; "-d"; "."; "-f"; "sarif"; "-R"; "ruleset.xml";
                 "-r"; "pmd-report.sarif"; "--minimum-priority"; "5"] true])
  /\ (forall toolPath,
         exists cmd,
           trace (executePmd svc env (mkPmdInfo "6.41.0" toolPath)
                    (SourcePath ".") "ruleset.xml" "sarif" "pmd-report.sarif"
                    "5")
           = [ExecGetExecOutput cmd
                ["--no-cache"; "-d"; "."; "-f"; "sarif"; "-R"; "ruleset.xml";
                 "-r"; "pmd-report.sarif"; "--minimum-priority"; "5"] true]).
Proof.
  intros run argv. split; [| split].
  - exists (newSyntaxOf sv). split; [| split].
    + now apply useNewArgsFormat_parsed.
    + intros cmd args irc Hin.
      apply (executePmd_launches svc env _ _ _ _ _ _ sv) in Hin; trivial.
      unfold launch in Hin. injection Hin as _ Hargs _. exact Hargs.
    + intros p ->. eexists. unfold run.
      rewrite (executePmd_valid svc env _ _ _ _ _ _ sv Hvalid). reflexivity.
  - intros toolPath. eexists.
    rewrite (executePmd_valid svc env (mkPmdInfo "6.40.0" toolPath)
               (SourcePath ".") "ruleset.xml" "sarif" "pmd-report.sarif" "5"
               (Semver.mkSemVer 6 40 0 [] []) eq_refl).
    reflexivity.
  - intros toolPath. eexists.
    rewrite (executePmd_valid svc env (mkPmdInfo "6.41.0" toolPath)
               (SourcePath ".") "ruleset.xml" "sarif" "pmd-report.sarif" "5"
               (Semver.mkSemVer 6 41 0 [] []) eq_refl).
    reflexivity.
Qed.

Lemma C2_witness :
  Semver.parse "7.0.0-rc1" = Ok (Semver.mkSemVer 7 0 0 ["rc1"] [])
  /\ trace (executePmd (Sample.services Sample.no_pages) Sample.linux
           (mkPmdInfo "7.0.0-rc1" "/opt/pmd") (FileList ["a.txt"; "b.txt"])
           "ruleset.xml" "sarif" "pmd-report.sarif" "4")
  = [FsWriteFile "pmd.filelist" "a.txt,b.txt" "utf8";
     ExecGetExecOutput "/opt/pmd/bin/pmd check --no-progress"
       ["--no-cache"; "--file-list"; "pmd.filelist"; "-f"; "sarif"; "-R";
        "ruleset.xml"; "-r"; "pmd-report.sarif"; "--minimum-priority"; "4"]
          true]
  /\ exists newSyntax,
      useNewArgsFormat "7.0.0-rc1" = Ok newSyntax
      /\ forall cmd args irc,
          In (ExecGetExecOutput cmd args irc)
             (trace (executePmd (Sample.services Sample.no_pages) Sample.linux
                       (mkPmdInfo "7.0.0-rc1" "/opt/pmd")
                       (FileList ["a.txt"; "b.txt"])
                       "ruleset.xml" "sarif" "pmd-report.sarif" "4")) ->
          args = ((if newSyntax then "--no-cache" else "-no-cache")
                    :: sourceFlags newSyntax (FileList ["a.txt"; "b.txt"])
                    ++ ["-f"; "sarif"; "-R"; "ruleset.xml"; "-r";
                        "pmd-report.sarif"; "--minimum-priority"; "4"])%list.
Proof.
  split; [reflexivity | split; [reflexivity |]].
  destruct (C2_argument_vector_order (Sample.services Sample.no_pages)
              Sample.linux (mkPmdInfo "7.0.0-rc1" "/opt/pmd")
              (FileList ["a.txt"; "b.txt"]) "ruleset.xml" "sarif"
              "pmd-report.sarif" "4"
              (Semver.mkSemVer 7 0 0 ["rc1"] []) eq_refl)
    as ((newSyntax & Hnew & Hargs & _) & _).
  exists newSyntax. split; [exact Hnew | exact Hargs].
Defined.

(** C6.  For every accepted version and every platform, the command
    [executePmd] launches is the tool path followed by [/bin/pmd] when
    [isPmd7Cli] holds and by [/bin/run.sh pmd] otherwise, except that on
    [win32] it is always [\bin\pmd.bat]; when [isPmd7Cli] holds,
    [ check --no-progress] follows the executable on every platform.  With
    an explicit path the launch is made. *)
Theorem C6_executable_suffix {P : PathModule} (svc : Services) (env : Env)
    (pmdInfo : PmdInfo) (sel : SourceSelector)
    (ruleset reportFormat reportFile minimumPriority : string)
    (sv : Semver.SemVer)
    (Hvalid : Semver.parse (version pmdInfo) = Ok sv) :
  let run := executePmd svc env pmdInfo sel ruleset reportFormat reportFile
               minimumPriority in
  exists nextGen,
    isPmd7Cli (version pmdInfo) = Ok nextGen
    /\ let executable :=
         if getPlatform env =? "win32" then "\bin\pmd.bat"
         else if nextGen then "/bin/pmd" else "/bin/run.sh pmd" in
       let command :=
         path pmdInfo ++ executable
         ++ (if nextGen then " check --no-progress" else "") in
       (forall cmd args irc,
           In (ExecGetExecOutput cmd args irc) (trace run) -> cmd = command)
       /\ (forall p, sel = SourcePath p ->
              exists args, trace run = [ExecGetExecOutput command args true]).
Proof.
  intros run. exists (nextGenOf sv). split; [| split].
  - now apply isPmd7Cli_parsed.
  - intros cmd args irc Hin.
    apply (executePmd_launches svc env _ _ _ _ _ _ sv) in Hin; trivial.
    unfold launch, executableSuffix in Hin. injection Hin as Hcmd _ _.
    exact Hcmd.
  - intros p ->. eexists. unfold run.
    rewrite (executePmd_valid svc env _ _ _ _ _ _ sv Hvalid). reflexivity.
Qed.

Lemma C6_witness :
  Semver.parse "7.0.0" = Ok (Semver.mkSemVer 7 0 0 [] [])
  /\ trace (executePmd (Sample.services Sample.no_pages) Sample.windows
           (mkPmdInfo "7.0.0" "C:\pmd") (SourcePath ".")
           "ruleset.xml" "sarif" "pmd-report.sarif" "5")
  = [ExecGetExecOutput "C:\pmd\bin\pmd.bat check --no-progress"
       ["--no-cache"; "-d"; "."; "-f"; "sarif"; "-R"; "ruleset.xml"; "-r";
        "pmd-report.sarif"; "--minimum-priority"; "5"] true]
  /\ exists nextGen,
      isPmd7Cli "7.0.0" = Ok nextGen
      /\ forall cmd args irc,
          In (ExecGetExecOutput cmd args irc)
             (trace (executePmd (Sample.services Sample.no_pages)
                       Sample.windows (mkPmdInfo "7.0.0" "C:\pmd")
                       (SourcePath ".") "ruleset.xml" "sarif"
                       "pmd-report.sarif" "5")) ->
          cmd = "C:\pmd" ++ "\bin\pmd.bat"
                ++ (if nextGen then " check --no-progress" else "").
Proof.
  split; [reflexivity | split; [reflexivity |]].
  destruct (C6_executable_suffix (Sample.services Sample.no_pages)
              Sample.windows (mkPmdInfo "7.0.0" "C:\pmd") (SourcePath ".")
              "ruleset.xml" "sarif" "pmd-report.sarif" "5"
              (Semver.mkSemVer 7 0 0 [] []) eq_refl)
    as (nextGen & Hnext & Hcmd & _).
  exists nextGen. split; [exact Hnext | exact Hcmd].
Defined.

(** C7.  With a file list as source selector and an accepted version,
    [executePmd] first writes the list, joined by commas and nothing else,
    to [pmd.filelist] (the host's [path.join('.', 'pmd.filelist')]); every
    launch has [--file-list pmd.filelist] among its arguments when
    [useNewArgsFormat] holds and [-filelist pmd.filelist] otherwise, and
    the launch is made when the write succeeds.  For [a.txt] and [b.txt]
    the file holds exactly [a.txt,b.txt]. *)
Theorem C7_file_list_selector {P : PathModule} (svc : Services) (env : Env)
    (pmdInfo : PmdInfo) (fileList : list string)
    (ruleset reportFormat reportFile minimumPriority : string)
    (sv : Semver.SemVer)
    (Hvalid : Semver.parse (version pmdInfo) = Ok sv)
    (Hjoin : join ["."; "pmd.filelist"] = "pmd.filelist") :
  let run := executePmd svc env pmdInfo (FileList fileList) ruleset
               reportFormat reportFile minimumPriority in
  let written := FsWriteFile "pmd.filelist" (Js.join "," fileList) "utf8" in
  exists newSyntax,
    useNewArgsFormat (version pmdInfo) = Ok newSyntax
    /\ hd_error (trace run) = Some written
    /\ (forall cmd args irc,
           In (ExecGetExecOutput cmd args irc) (trace run) ->
           exists front back,
             args = (front
                       ++ [if newSyntax then "--file-list" else "-filelist";
                           "pmd.filelist"]
                       ++ back)%list)
    /\ (fs_writeFile svc "pmd.filelist" (Js.join "," fileList) "utf8" = Ok tt ->
        exists cmd args,
          trace run = [written; ExecGetExecOutput cmd args true])
    /\ Js.join "," ["a.txt"; "b.txt"] = "a.txt,b.txt".
Proof.
  intros run written. exists (newSyntaxOf sv).
  assert (Hrun := executePmd_valid svc env pmdInfo (FileList fileList) ruleset
                    reportFormat reportFile minimumPriority sv Hvalid).
  cbv zeta in Hrun. unfold fileListWrite in Hrun. rewrite Hjoin in Hrun.
  fold written in Hrun. fold run in Hrun.
  split; [| split; [| split; [| split]]].
  - now apply useNewArgsFormat_parsed.
  - rewrite Hrun. now destruct (fs_writeFile svc _ _ _).
  - intros cmd args irc Hin.
    apply (executePmd_launches svc env _ _ _ _ _ _ sv) in Hin; trivial.
    unfold launch, argumentVector in Hin. injection Hin as _ Hargs _.
    rewrite Hargs. exists [noCacheFlag (newSyntaxOf sv)].
    exists ["-f"; reportFormat; "-R"; ruleset; "-r"; reportFile;
            "--minimum-priority"; minimumPriority].
    reflexivity.
  - intros Hw. rewrite Hrun, Hw. eexists. eexists. reflexivity.
  - reflexivity.
Qed.

Lemma C7_witness :
  Semver.parse "6.40.0" = Ok (Semver.mkSemVer 6 40 0 [] [])
  /\ join ["."; "pmd.filelist"] = "pmd.filelist"
  /\ exists newSyntax,
      useNewArgsFormat "6.40.0" = Ok newSyntax
      /\ hd_error
           (trace (executePmd (Sample.services Sample.no_pages) Sample.linux
                     (mkPmdInfo "6.40.0" "/opt/pmd")
                     (FileList ["a.txt"; "b.txt"])
                     "ruleset.xml" "sarif" "pmd-report.sarif" "5"))
         = Some (FsWriteFile "pmd.filelist" "a.txt,b.txt" "utf8").
Proof.
  split; [reflexivity | split; [reflexivity |]].
  destruct (C7_file_list_selector (P := posix)
              (Sample.services Sample.no_pages)
              Sample.linux (mkPmdInfo "6.40.0" "/opt/pmd") ["a.txt"; "b.txt"]
              "ruleset.xml" "sarif" "pmd-report.sarif" "5"
              (Semver.mkSemVer 6 40 0 [] []) eq_refl eq_refl)
    as (newSyntax & Hnew & Hfirst & _).
  exists newSyntax. split; [exact Hnew | exact Hfirst].
Defined.

(** ** ArtifactResolver *)

(** C5.  For every download URL that is present and not empty,
    [downloadPmd] with the version [latest] throws the error of the
    conflicting inputs, and its trace is empty: no download, no registry
    lookup, no cache access and no other external call has been made. *)
Theorem C5_latest_with_download_url {P : PathModule} (svc : Services)
    (env : Env) (token url : string) (Hset : url <> "") :
  downloadPmd svc env "latest" token (Some url)
  = (Throw (Error ("Can't combine version=latest with custom downloadUrl="
                   ++ url)),
     []).
Proof.
  unfold downloadPmd, is_undefined, is_empty, show.
  apply String.eqb_neq in Hset. rewrite Hset. reflexivity.
Qed.

Lemma C5_witness :
  "https://example.org/download" <> ""
  /\ downloadPmd (Sample.services Sample.no_pages) Sample.linux "latest"
       "my-token" (Some "https://example.org/download")
     = (Throw (Error "Can't combine version=latest with custom downloadUrl=https://example.org/download"),
        []).
Proof.
  assert (H : "https://example.org/download" <> "") by discriminate.
  split; [exact H |].
  exact (C5_latest_with_download_url (Sample.services Sample.no_pages)
           Sample.linux "my-token" "https://example.org/download" H).
Defined.

Lemma filter_nil_iff {A} (p : A -> bool) (l : list A) :
  filter p l = [] <-> forall a, In a l -> p a = false.
Proof.
  induction l as [| x l IH]; simpl.
  - split; [intros _ a [] | trivial].
  - destruct (p x) eqn:Hx; split.
    + discriminate.
    + intros H. specialize (H x (or_introl eq_refl)). congruence.
    + intros H a [<- | Ha]; [exact Hx | now apply IH].
    + intros H. apply IH. intros a Ha. apply H. now right.
Qed.

(** The test of [getDownloadURL] decides [distributionAsset]. *)
Lemma distributionAsset_test version a :
  (name a =? "pmd-bin-" ++ version ++ ".zip")
  || (name a =? "pmd-dist-" ++ version ++ "-bin.zip") = true
  <-> distributionAsset version a.
Proof.
  unfold distributionAsset.
  rewrite orb_true_iff, !String.eqb_eq. reflexivity.
Qed.

(** C10.  [getDownloadURL] yields a URL only when the release has an asset
    named [pmd-bin-<version>.zip] or [pmd-dist-<version>-bin.zip], and then
    it is the URL of such an asset; when the release has one it does yield
    a URL; when no asset has either name, it reads a property of
    [undefined] and throws the [TypeError] of the runtime. *)
Theorem C10_download_url_needs_matching_asset (release : Release) :
  let version := getPmdVersionFromRelease release in
  (forall url,
      getDownloadURL release = Ok url ->
      exists a, In a (assets release) /\ distributionAsset version a
                /\ browser_download_url a = url)
  /\ ((exists a, In a (assets release) /\ distributionAsset version a) ->
      exists url, getDownloadURL release = Ok url)
  /\ ((forall a, In a (assets release) -> ~ distributionAsset version a) ->
      getDownloadURL release
      = Throw (TypeError
                 "Cannot read properties of undefined (reading 'browser_download_url')")).
Proof.
  intros version. unfold getDownloadURL. fold version.
  destruct (filter _ (assets release)) as [| a rest] eqn:Hf; cbn.
  - split; [| split].
    + discriminate.
    + intros (a & Hin & Ha).
      apply (proj1 (filter_nil_iff _ _) Hf) in Hin.
      apply distributionAsset_test in Ha. congruence.
    + reflexivity.
  - assert (Hin : In a (filter
                          (fun a =>
                             (name a =? "pmd-bin-" ++ version ++ ".zip")
                             || (name a =? "pmd-dist-" ++ version ++ "-bin.zip"))
                          (assets release)))
      by (rewrite Hf; now left).
    apply filter_In in Hin. destruct Hin as [Hin Ha].
    apply distributionAsset_test in Ha.
    split; [| split].
    + intros url [= <-]. now exists a.
    + intros _. now eexists.
    + intros Hnone. now destruct (Hnone a Hin).
Qed.

Lemma C10_witness :
  getDownloadURL
    (mkRelease "pmd_releases/7.0.0-rc3"
       [mkAsset "pmd-dist-7.0.0-rc3-src.zip" "https://github.com/src";
        mkAsset "pmd-dist-7.0.0-rc3-bin.zip" "https://github.com/bin"])
  = Ok "https://github.com/bin"
  /\ getDownloadURL
       (mkRelease "pmd_releases/7.0.0"
          [mkAsset "pmd-7.0.0-doc.zip" "https://github.com/doc"])
     = Throw (TypeError
                "Cannot read properties of undefined (reading 'browser_download_url')").
Proof.
  split; [reflexivity |].
  apply (C10_download_url_needs_matching_asset
           (mkRelease "pmd_releases/7.0.0"
              [mkAsset "pmd-7.0.0-doc.zip" "https://github.com/doc"])).
  intros a [<- | []] [H | H]; discriminate.
Defined.

(** ** ChangeSetResolver *)

(** *** The set *)

Lemma Set_add_In s f x : In x (Set_add s f) <-> In x s \/ x = f.
Proof.
  unfold Set_add. destruct (existsb (String.eqb f) s) eqn:Hmem.
  - apply existsb_exists in Hmem. destruct Hmem as (y & Hy & Heq).
    apply String.eqb_eq in Heq. subst y. split; [tauto |].
    intros [H | ->]; trivial.
  - rewrite in_app_iff. simpl. split; intros [H | H]; auto.
    destruct H as [<- | []]. now right.
Qed.

Lemma Set_add_NoDup s f : NoDup s -> NoDup (Set_add s f).
Proof.
  intros Hs. unfold Set_add. destruct (existsb (String.eqb f) s) eqn:Hmem.
  - exact Hs.
  - apply NoDup_app; trivial.
    + constructor; [intros [] | constructor].
    + intros x Hx [<- | []].
      assert (Hex : existsb (String.eqb f) s = true).
      { apply existsb_exists. exists f. split; trivial. apply String.eqb_refl. }
      congruence.
Qed.

Lemma fold_Set_add_NoDup l s : NoDup s -> NoDup (fold_left Set_add l s).
Proof.
  revert s. induction l as [| x l IH]; intros s Hs; simpl; trivial.
  apply IH. now apply Set_add_NoDup.
Qed.

Lemma fold_Set_add_In l s x :
  In x (fold_left Set_add l s) <-> In x s \/ In x l.
Proof.
  revert s. induction l as [| y l IH]; intros s; simpl.
  - tauto.
  - rewrite IH, Set_add_In. split; intros H; intuition auto.
Qed.

Lemma filter_filter_comm {A} (p q : A -> bool) l :
  filter p (filter q l) = filter q (filter p l).
Proof.
  induction l as [| x l IH]; simpl; trivial.
  destruct (p x) eqn:Hp, (q x) eqn:Hq; simpl; rewrite ?Hp, ?Hq, IH; trivial.
Qed.

Lemma filter_all {A} (p : A -> bool) l :
  (forall a, In a l -> p a = true) -> filter p l = l.
Proof.
  induction l as [| x l IH]; simpl; intros H; trivial.
  rewrite (H x (or_introl eq_refl)), IH; auto.
Qed.

Lemma filter_filter {A} (p q : A -> bool) l :
  filter p (filter q l) = filter (fun a => q a && p a) l.
Proof.
  induction l as [| x l IH]; simpl; trivial.
  destruct (q x) eqn:Hq; simpl; rewrite IH; trivial.
Qed.

Lemma firstOccurrences_filter p l :
  firstOccurrences (filter p l) = filter p (firstOccurrences l).
Proof.
  induction l as [| x l IH]; simpl; trivial.
  destruct (p x) eqn:Hp; simpl.
  - rewrite IH. f_equal. apply filter_filter_comm.
  - rewrite IH, filter_filter_comm. symmetry. apply filter_all.
    intros y Hy. apply filter_In in Hy. destruct Hy as [_ Hy].
    destruct (String.eqb_spec y x) as [-> | Hne]; trivial. congruence.
Qed.

(** Adding a sequence to an insertion-ordered set appends the first
    occurrences of the names the set does not hold yet. *)
Lemma fold_Set_add_firstOccurrences l s :
  fold_left Set_add l s
  = (s ++ firstOccurrences
            (filter (fun y => negb (existsb (String.eqb y) s)) l))%list.
Proof.
  revert s. induction l as [| x l IH]; intros s; simpl.
  - now rewrite app_nil_r.
  - rewrite IH. unfold Set_add.
    destruct (existsb (String.eqb x) s) eqn:Hmem; simpl; trivial.
    rewrite <- app_assoc. simpl. do 2 f_equal.
    rewrite <- firstOccurrences_filter, filter_filter.
    apply (f_equal firstOccurrences). apply filter_ext. intros y.
    rewrite existsb_app. simpl. rewrite orb_false_r, negb_orb.
    reflexivity.
Qed.

Lemma fold_Set_add_nil l : fold_left Set_add l [] = firstOccurrences l.
Proof.
  rewrite fold_Set_add_firstOccurrences. simpl. f_equal.
  now apply filter_all.
Qed.

(** *** The two loops *)

Lemma bind_ret_l {A B} (a : A) (k : A -> M B) : bind (ret a) k = k a.
Proof. unfold bind, ret. now destruct (k a). Qed.

Lemma extractFilenames_keptNames {P : PathModule} allFiles page sourcePath :
  extractFilenames allFiles page sourcePath = keptNames sourcePath allFiles.
Proof.
  unfold extractFilenames, keptNames, underSourcePath, Js.startsWith.
  do 2 f_equal. apply filter_ext. intros e. unfold keptStatus.
  now destruct (status e).
Qed.

(** With a token, the run is the branch of its event kind, entered with
    the client [apiClient]. *)
Lemma getOctokit_token env token :
  token <> "" ->
  getOctokit env token
  = ret (mkOctokit (defaults_baseUrl env) (Some ("token " ++ token)) false).
Proof.
  intros Htoken. unfold getOctokit. apply String.eqb_neq in Htoken.
  now rewrite Htoken.
Qed.

Lemma getOctokit_no_token env :
  getOctokit env "" = throw (Error "Parameter token or opts.auth is required").
Proof. reflexivity. Qed.

Lemma pullRequestLoop_pageLoop {P : PathModule} svc env context token
    sourcePath fuel page s :
  pullRequestLoop svc context (apiClient env token) sourcePath fuel page s
  = pageLoop (pullRequestRequest env context token)
      (pullRequestPage svc env context token) sourcePath fuel page s.
Proof.
  revert page s. induction fuel as [| fuel IH]; intros page s; simpl; trivial.
  destruct (page <=? MAX_PAGE)%nat; trivial.
  unfold pullRequestPage at 1, pullRequestRequest at 1, bind, call.
  destruct (pulls_listFiles svc _ _ _ _ _) as [[| e l] | err]; trivial.
  cbn [List.length Nat.eqb]. now rewrite IH, extractFilenames_keptNames.
Qed.

Lemma pushLoop_pageLoop {P : PathModule} svc env context token sourcePath
    fuel page s :
  pushLoop svc context (apiClient env token) sourcePath fuel page s
  = pageLoop (pushRequest env context token)
      (pushPage svc env context token) sourcePath fuel page s.
Proof.
  revert page s. induction fuel as [| fuel IH]; intros page s; simpl; trivial.
  destruct (page <=? MAX_PAGE)%nat; trivial.
  unfold pushPage at 1, pushRequest at 1, bind, call.
  destruct (repos_compareCommitsWithBasehead svc _ _ _ _ _)
    as [[[| e l] |] | err]; trivial.
  cbn [List.length Nat.eqb]. now rewrite IH, extractFilenames_keptNames.
Qed.

(** With [n] pages left and fuel for them, the loop is its closed form:
    the fuel never runs out before the guard [page <= MAX_PAGE] fails. *)
Lemma pageLoop_outcome {P : PathModule} req resp sourcePath n :
  forall fuel page s,
    page + n = S MAX_PAGE -> n <= fuel ->
    pageLoop req resp sourcePath fuel page s
    = loopOutcome req resp sourcePath n page s.
Proof.
  induction n as [| n IH]; intros fuel page s Hpage Hfuel.
  - unfold loopOutcome. simpl. rewrite Nat.add_0_r.
    destruct fuel as [| fuel]; simpl; trivial.
    replace (page <=? MAX_PAGE)%nat with false; trivial.
    symmetry. apply Nat.leb_gt. lia.
  - destruct fuel as [| fuel]; [lia |]. simpl.
    replace (page <=? MAX_PAGE)%nat with true
      by (symmetry; apply Nat.leb_le; lia).
    unfold loopOutcome. simpl readPages. unfold bind, call.
    destruct (resp page) as [[[| e l] |] | err] eqn:Hresp; simpl;
      rewrite ?Nat.add_0_r, ?Hresp; trivial.
    rewrite IH; [| lia | lia]. unfold loopOutcome.
    rewrite fold_left_app, <- !Nat.add_succ_comm.
    destruct (List.length (readPages resp n (S page)) =? n)%nat; trivial.
Qed.

Lemma pageLoop_fuel {P : PathModule} req resp sourcePath fuel page s :
  S MAX_PAGE - page <= fuel ->
  pageLoop req resp sourcePath fuel page s
  = pageLoop req resp sourcePath (S MAX_PAGE - page) page s.
Proof.
  intros Hfuel.
  destruct (Nat.le_gt_cases page (S MAX_PAGE)) as [Hle | Hgt].
  - rewrite (pageLoop_outcome req resp sourcePath (S MAX_PAGE - page)) by lia.
    now rewrite (pageLoop_outcome req resp sourcePath (S MAX_PAGE - page))
      by lia.
  - replace (S MAX_PAGE - page) with 0 by lia. simpl.
    destruct fuel as [| fuel]; simpl; trivial.
    replace (page <=? MAX_PAGE)%nat with false; trivial.
    symmetry. apply Nat.leb_gt. lia.
Qed.

(** *** [determineModifiedFiles], by event kind *)

Lemma determineModifiedFiles_pull_request {P : PathModule} svc env context
    token sourcePath :
  token <> "" ->
  eventName context = "pull_request" ->
  determineModifiedFiles svc env context token sourcePath
  = finish (pullRequestWarning context)
      (loopOutcome (pullRequestRequest env context token)
         (pullRequestPage svc env context token) sourcePath MAX_PAGE 1 []).
Proof.
  intros Htoken Hev. unfold determineModifiedFiles.
  rewrite (getOctokit_token env token Htoken), Hev.
  rewrite bind_ret_l. fold (apiClient env token).
  cbn [String.eqb Ascii.eqb Bool.eqb].
  rewrite pullRequestLoop_pageLoop.
  rewrite (pageLoop_outcome _ _ _ MAX_PAGE) by (unfold MAX_PAGE; lia).
  reflexivity.
Qed.

Lemma determineModifiedFiles_push {P : PathModule} svc env context token
    sourcePath :
  token <> "" ->
  eventName context = "push" ->
  determineModifiedFiles svc env context token sourcePath
  = finish (pushWarning context)
      (loopOutcome (pushRequest env context token)
         (pushPage svc env context token) sourcePath MAX_PAGE 1 []).
Proof.
  intros Htoken Hev. unfold determineModifiedFiles.
  rewrite (getOctokit_token env token Htoken), Hev.
  rewrite bind_ret_l. fold (apiClient env token).
  cbn [String.eqb Ascii.eqb Bool.eqb].
  rewrite pushLoop_pageLoop.
  rewrite (pageLoop_outcome _ _ _ MAX_PAGE) by (unfold MAX_PAGE; lia).
  reflexivity.
Qed.

(** Any other event kind: a warning, and no list. *)
Lemma determineModifiedFiles_unsupported {P : PathModule} svc env context
    token sourcePath :
  token <> "" ->
  eventName context <> "pull_request" ->
  eventName context <> "push" ->
  determineModifiedFiles svc env context token sourcePath
  = (Ok None,
     [CoreWarning
        ("Unsupported github action event '" ++ eventName context
         ++ "' - cannot determine modified files. All files will be analyzed.")]).
Proof.
  intros Htoken Hpr Hpush. unfold determineModifiedFiles.
  rewrite (getOctokit_token env token Htoken), bind_ret_l.
  apply String.eqb_neq in Hpr, Hpush. now rewrite Hpr, Hpush.
Qed.

Lemma finish_loopOutcome {P : PathModule} warning req resp sourcePath :
  finish warning (loopOutcome req resp sourcePath MAX_PAGE 1 [])
  = resolution warning req resp sourcePath.
Proof.
  unfold finish, loopOutcome, resolution. cbv zeta.
  rewrite fold_Set_add_nil.
  destruct (List.length (readPages resp MAX_PAGE 1) =? MAX_PAGE)%nat.
  - reflexivity.
  - change (1 + List.length (readPages resp MAX_PAGE 1))
      with (S (List.length (readPages resp MAX_PAGE 1))).
    destruct (resp (S _)) as [a | err]; [| reflexivity].
    unfold bind, call, ret.
    destruct (MAX_PAGE <=? S _)%nat; cbn; now rewrite ?app_nil_r.
Qed.

(** A run that returns a list is the resolution of its branch. *)
Lemma determineModifiedFiles_returns {P : PathModule} svc env context token
    sourcePath files :
  value (determineModifiedFiles svc env context token sourcePath)
  = Ok (Some files) ->
  determineModifiedFiles svc env context token sourcePath
  = resolution (warningOf context) (requestOf env context token)
      (answersOf svc env context token) sourcePath.
Proof.
  intros Hret.
  assert (Htoken : token <> "").
  { intros ->. unfold determineModifiedFiles in Hret.
    rewrite getOctokit_no_token in Hret. discriminate. }
  unfold warningOf, requestOf, answersOf.
  destruct (eventName context =? "pull_request") eqn:Hpr.
  - apply String.eqb_eq in Hpr.
    now rewrite determineModifiedFiles_pull_request, finish_loopOutcome.
  - destruct (eventName context =? "push") eqn:Hpush.
    + apply String.eqb_eq in Hpush.
      now rewrite determineModifiedFiles_push, finish_loopOutcome.
    + unfold determineModifiedFiles in Hret.
      rewrite (getOctokit_token env token Htoken), bind_ret_l in Hret.
      rewrite Hpr, Hpush in Hret. discriminate.
Qed.

(** *** The pages read *)

Lemma readPages_length resp n page : List.length (readPages resp n page) <= n.
Proof.
  revert page. induction n as [| n IH]; intros page; simpl; trivial.
  destruct (resp page) as [[[| e l] |] | err]; simpl; try lia.
  specialize (IH (S page)). lia.
Qed.

(** The pages read are the answers to the requests from [page] on, in
    order, and none of them is empty. *)
Lemma readPages_answers resp n page :
  Forall2 (fun i l => resp i = Ok (Some l) /\ l <> [])
    (seq page (List.length (readPages resp n page))) (readPages resp n page).
Proof.
  revert page. induction n as [| n IH]; intros page; simpl.
  - constructor.
  - destruct (resp page) as [[[| e l] |] | err] eqn:Hresp; simpl;
      try constructor.
    + split; [exact Hresp | discriminate].
    + apply IH.
Qed.

(** The loop reads at least [m] pages exactly when the first [m] come
    back with entries. *)
Lemma readPages_reaches resp n page m :
  m <= n ->
  (m <= List.length (readPages resp n page)
   <-> forall i, page <= i < page + m -> fullPage (resp i)).
Proof.
  revert page m. induction n as [| n IH]; intros page m Hm.
  - assert (m = 0) as -> by lia. simpl. split; [lia | trivial].
  - destruct m as [| m].
    + split; [lia | intros _; lia].
    + simpl. destruct (resp page) as [[[| e l] |] | err] eqn:Hresp; simpl.
      * split; [lia |]. intros H.
        destruct (H page ltac:(lia)) as (e & l & He). congruence.
      * rewrite <- Nat.succ_le_mono, (IH (S page) m) by lia. split.
        -- intros H i Hi. destruct (Nat.eq_dec i page) as [-> | Hne].
           ++ unfold fullPage. eauto.
           ++ apply H. lia.
        -- intros H i Hi. apply H. lia.
      * split; [lia |]. intros H.
        destruct (H page ltac:(lia)) as (e & l & He). congruence.
      * split; [lia |]. intros H.
        destruct (H page ltac:(lia)) as (e & l & He). congruence.
Qed.

(** When the first [m] pages have entries and the next one stops the
    loop, the loop reads exactly those. *)
Lemma readPages_stops resp pages n page m :
  m <= n ->
  (forall i, page <= i < page + m ->
             resp i = Ok (Some (pages i)) /\ pages i <> []) ->
  (m < n -> ~ fullPage (resp (page + m))) ->
  readPages resp n page = map pages (seq page m).
Proof.
  revert page m. induction n as [| n IH]; intros page m Hm Hfull Hstop.
  - now assert (m = 0) as -> by lia.
  - destruct m as [| m]; simpl.
    + rewrite Nat.add_0_r in Hstop.
      destruct (resp page) as [[[| e l] |] | err] eqn:Hresp; trivial.
      destruct Hstop; [lia |]. unfold fullPage. eauto.
    + destruct (Hfull page ltac:(lia)) as [Hresp Hne]. rewrite Hresp.
      destruct (pages page) as [| e l] eqn:Hpage; [congruence |].
      rewrite <- Hpage. f_equal. apply IH.
      * lia.
      * intros i Hi. apply Hfull. lia.
      * intros Hlt. rewrite Nat.add_succ_comm. apply Hstop. lia.
Qed.

Lemma emptyPage_not_full r : emptyPage r -> ~ fullPage r.
Proof. intros [-> | ->] (e & l & H); discriminate. Qed.

(** *** The source path on a POSIX host *)

Lemma rev_string_app s t acc :
  Js.rev_string (s ++ t) acc = Js.rev_string t (Js.rev_string s acc).
Proof.
  revert acc. induction s as [| a s IH]; intros acc; simpl; trivial.
Qed.

Lemma endsWithSlash_app s : PosixPath.endsWithSlash (s ++ "/") = true.
Proof.
  unfold PosixPath.endsWithSlash. now rewrite rev_string_app.
Qed.

Lemma prefix_app p f :
  String.prefix p f = true -> exists rest, f = p ++ rest.
Proof.
  revert f. induction p as [| a p IH]; intros f H.
  - now exists f.
  - destruct f as [| b f]; simpl in H; [discriminate |].
    destruct (Ascii.ascii_dec a b) as [-> | Hne]; [| discriminate].
    destruct (IH f H) as (rest & ->). now exists rest.
Qed.

(** Normalizing a path that ends with a separator gives one that does. *)
Lemma normalize_keeps_trailing_separator path :
  PosixPath.endsWithSlash path = true ->
  PosixPath.endsWithSlash (PosixPath.normalize path) = true.
Proof.
  intros Htrail. unfold PosixPath.normalize.
  destruct (path =? "") eqn:Hempty.
  - apply String.eqb_eq in Hempty. now subst path.
  - rewrite Htrail.
    destruct (Js.join "/" _ =? "") eqn:Hp.
    + now destruct (Js.startsWith path "/").
    + destruct (Js.startsWith path "/").
      * change ("/" ++ Js.join "/" (PosixPath.normalizeSegments (negb true)
                                      (Js.split "/" path) []) ++ "/")
          with (("/" ++ Js.join "/" (PosixPath.normalizeSegments (negb true)
                                       (Js.split "/" path) [])) ++ "/").
        apply endsWithSlash_app.
      * apply endsWithSlash_app.
Qed.

(** On a POSIX host a name passes the test of [extractFilenames] only
    when the source path is [.] or the name is the normalized source
    directory, separator included, followed by the rest of the name. *)
Lemma underSourcePath_posix sourcePath f :
  underSourcePath (P := posix) sourcePath f = true ->
  sourcePath = "."
  \/ exists dir rest,
      dir = PosixPath.normalize (sourcePath ++ "/")
      /\ PosixPath.endsWithSlash dir = true
      /\ f = dir ++ rest.
Proof.
  unfold underSourcePath. cbn [normalize posix].
  destruct (String.eqb_spec sourcePath ".") as [-> | Hne]; [now left |].
  cbn [negb]. intros H. right.
  assert (Htrail := normalize_keeps_trailing_separator (sourcePath ++ "/")
                      (endsWithSlash_app sourcePath)).
  apply orb_true_iff in H. destruct H as [H | H].
  - apply String.eqb_eq in H. rewrite H in Htrail. discriminate.
  - apply prefix_app in H. destruct H as (rest & Hrest). eauto.
Qed.

(** *** What a resolution returns *)

Lemma firstOccurrences_In l x : In x (firstOccurrences l) <-> In x l.
Proof.
  rewrite <- fold_Set_add_nil, fold_Set_add_In. simpl. tauto.
Qed.

Lemma firstOccurrences_NoDup l : NoDup (firstOccurrences l).
Proof.
  rewrite <- fold_Set_add_nil. apply fold_Set_add_NoDup. constructor.
Qed.

Lemma keptNames_In {P : PathModule} sourcePath entries f :
  In f (keptNames sourcePath entries)
  <-> exists e, In e entries /\ kept e /\ f = normalize (filename e)
                /\ underSourcePath sourcePath f = true.
Proof.
  unfold keptNames. rewrite filter_In, in_map_iff. split.
  - intros [(e & <- & He) Hunder]. apply filter_In in He.
    destruct He as [He Hst]. exists e. repeat split; trivial.
    unfold kept. destruct (status e); try discriminate; auto.
  - intros (e & He & Hst & -> & Hunder). split; trivial.
    exists e. split; trivial. apply filter_In. split; trivial.
    destruct Hst as [-> | [-> | ->]]; reflexivity.
Qed.

Lemma keptNames_pages_In {P : PathModule} sourcePath read f :
  In f (concat (map (keptNames sourcePath) read))
  <-> exists e, In e (concat read) /\ kept e /\ f = normalize (filename e)
                /\ underSourcePath sourcePath f = true.
Proof.
  rewrite in_concat. split.
  - intros (names & Hnames & Hf). apply in_map_iff in Hnames.
    destruct Hnames as (page & <- & Hpage). apply keptNames_In in Hf.
    destruct Hf as (e & He & Hrest). exists e. split; trivial.
    apply in_concat. eauto.
  - intros (e & He & Hrest). apply in_concat in He.
    destruct He as (page & Hpage & He). exists (keptNames sourcePath page).
    split; [now apply in_map |]. apply keptNames_In. eauto.
Qed.

Lemma resolution_value {P : PathModule} warning req resp sourcePath files :
  value (resolution warning req resp sourcePath) = Ok (Some files) ->
  files = firstOccurrences
            (concat (map (keptNames sourcePath) (readPages resp MAX_PAGE 1))).
Proof.
  unfold resolution. cbv zeta.
  destruct (List.length (readPages resp MAX_PAGE 1) =? MAX_PAGE)%nat.
  - cbn. congruence.
  - destruct (resp (S _)); cbn; congruence.
Qed.

Lemma request_not_warning env context token l :
  ~ In (warningOf context) (map (requestOf env context token) l).
Proof.
  intros Hin. apply in_map_iff in Hin. destruct Hin as (i & Heq & _).
  unfold warningOf, requestOf in Heq.
  destruct (eventName context =? "pull_request"); discriminate.
Qed.

(** The warning is in the trace of a resolution that returns exactly when
    the loop has read at least [MAX_PAGE - 1] pages. *)
Lemma resolution_warning {P : PathModule} env context token resp sourcePath
    files :
  let run := resolution (warningOf context) (requestOf env context token) resp
               sourcePath in
  value run = Ok (Some files) ->
  (In (warningOf context) (trace run)
   <-> MAX_PAGE - 1 <= List.length (readPages resp MAX_PAGE 1)).
Proof.
  unfold resolution. cbv zeta.
  assert (Hle := readPages_length resp MAX_PAGE 1).
  destruct (List.length (readPages resp MAX_PAGE 1) =? MAX_PAGE)%nat eqn:Hk.
  - intros _. apply Nat.eqb_eq in Hk. cbn [trace snd]. rewrite in_app_iff.
    split; [lia |]. intros _. right. now left.
  - apply Nat.eqb_neq in Hk.
    destruct (resp (S _)); cbn [value fst trace snd]; [| discriminate].
    intros _. rewrite in_app_iff.
    destruct (MAX_PAGE <=? S _)%nat eqn:Hmax.
    + apply Nat.leb_le in Hmax. split; [lia |]. intros _. right. now left.
    + apply Nat.leb_gt in Hmax. split; [| lia].
      intros [Hin | []]. now apply request_not_warning in Hin.
Qed.

(** C4.  Whatever the pages and whatever the source path, the list that
    [determineModifiedFiles] returns has no duplicates; each of its names
    is the host-normalized filename of an entry of a page that was read,
    and is equal to or nested under the source path, which is to say that
    the source path is [.] or the name begins with the normalized source
    path and its separator ([underSourcePath]); and the list is, in this
    order, the names kept from the pages read in page order and within a
    page in entry order, every repetition after the first struck out. *)
Theorem C4_change_set_invariants {P : PathModule} (svc : Services)
    (env : Env) (context : Context) (token sourcePath : string)
    (files : list string)
    (Hret : value (determineModifiedFiles svc env context token sourcePath)
            = Ok (Some files)) :
  let answers := answersOf svc env context token in
  let read := readPages answers MAX_PAGE 1 in
  NoDup files
  /\ (forall f, In f files ->
                (exists e, In e (concat read) /\ f = normalize (filename e))
                /\ underSourcePath sourcePath f = true)
  /\ Forall2 (fun i page => answers i = Ok (Some page) /\ page <> [])
       (seq 1 (List.length read)) read
  /\ files = firstOccurrences (concat (map (keptNames sourcePath) read)).
Proof.
  intros answers read.
  rewrite (determineModifiedFiles_returns _ _ _ _ _ _ Hret) in Hret.
  apply resolution_value in Hret. fold answers in Hret. fold read in Hret.
  split; [| split; [| split]].
  - rewrite Hret. apply firstOccurrences_NoDup.
  - intros f Hf. rewrite Hret in Hf.
    apply firstOccurrences_In, keptNames_pages_In in Hf.
    destruct Hf as (e & He & _ & Hf & Hunder). eauto.
  - apply readPages_answers.
  - exact Hret.
Qed.

Lemma C4_witness :
  value (determineModifiedFiles (Sample.services Sample.endless) Sample.linux
           (Sample.event "push") "my_test_token" "src/main/java")
  = Ok (Some ["src/main/java/AvoidCatchingThrowableSample.java";
              "src/main/java/NewFile.java"; "src/main/java/ChangedFile.java"])
  /\ NoDup ["src/main/java/AvoidCatchingThrowableSample.java";
            "src/main/java/NewFile.java"; "src/main/java/ChangedFile.java"].
Proof.
  split; [reflexivity |].
  apply (C4_change_set_invariants (P := posix) (Sample.services Sample.endless)
           Sample.linux (Sample.event "push") "my_test_token" "src/main/java"
           ["src/main/java/AvoidCatchingThrowableSample.java";
            "src/main/java/NewFile.java"; "src/main/java/ChangedFile.java"]
           eq_refl).
Defined.

(** C8.  Every name that [determineModifiedFiles] returns is the
    normalized filename of an entry, of a page that was read, whose status
    is added, changed or modified; a name that only entries with another
    status carry (removed, renamed, copied, unchanged) is not returned. *)
Theorem C8_only_kept_statuses {P : PathModule} (svc : Services) (env : Env)
    (context : Context) (token sourcePath : string) (files : list string)
    (Hret : value (determineModifiedFiles svc env context token sourcePath)
            = Ok (Some files)) :
  let read := readPages (answersOf svc env context token) MAX_PAGE 1 in
  (forall f, In f files ->
             exists e, In e (concat read)
                       /\ (status e = added \/ status e = changed
                           \/ status e = modified)
                       /\ f = normalize (filename e))
  /\ (forall f,
         (forall e, In e (concat read) -> normalize (filename e) = f ->
                    status e = removed \/ status e = renamed
                    \/ status e = copied \/ status e = unchanged) ->
         ~ In f files).
Proof.
  intros read.
  rewrite (determineModifiedFiles_returns _ _ _ _ _ _ Hret) in Hret.
  apply resolution_value in Hret. fold read in Hret.
  assert (Hkept : forall f, In f files ->
                            exists e, In e (concat read) /\ kept e
                                      /\ f = normalize (filename e)).
  { intros f Hf. rewrite Hret in Hf.
    apply firstOccurrences_In, keptNames_pages_In in Hf.
    destruct Hf as (e & He & Hst & Hf & _). eauto. }
  split; [exact Hkept |].
  intros f Hother Hf. destruct (Hkept f Hf) as (e & He & Hst & Heq).
  specialize (Hother e He (eq_sym Heq)). unfold kept in Hst.
  destruct Hother as [H | [H | [H | H]]]; rewrite H in Hst;
    destruct Hst as [H' | [H' | H']]; discriminate.
Qed.

Lemma C8_witness :
  value (determineModifiedFiles (Sample.services Sample.one_page)
           Sample.linux (Sample.event "pull_request") "my_test_token" ".")
  = Ok (Some ["src/main/java/AvoidCatchingThrowableSample.java";
              "src/main/java/NewFile.java"; "src/main/java/ChangedFile.java";
              "README.md"; "src/main/java2/NewFile.java"])
  /\ ~ In "src/main/java/DeleteFile.java"
         ["src/main/java/AvoidCatchingThrowableSample.java";
          "src/main/java/NewFile.java"; "src/main/java/ChangedFile.java";
          "README.md"; "src/main/java2/NewFile.java"].
Proof.
  split; [reflexivity |].
  apply (C8_only_kept_statuses (P := posix) (Sample.services Sample.one_page)
           Sample.linux (Sample.event "pull_request") "my_test_token" "."
           ["src/main/java/AvoidCatchingThrowableSample.java";
            "src/main/java/NewFile.java"; "src/main/java/ChangedFile.java";
            "README.md"; "src/main/java2/NewFile.java"]
           eq_refl).
  intros e He Heq. cbn in He.
  repeat (destruct He as [<- | He]; [try discriminate Heq; auto |]).
  destruct He.
Defined.

(** C9.  In both branches the warning follows the test
    [page >= MAX_PAGE]: when [determineModifiedFiles] returns a list, the
    warning is in its trace exactly when each of the pages 1 to
    [MAX_PAGE - 1] came back with entries.  In particular it is emitted
    when page [MAX_PAGE] itself comes back empty, although the list then
    holds the names of every page that has entries. *)
Theorem C9_warning_when_counter_reaches_max {P : PathModule} (svc : Services)
    (env : Env) (context : Context) (token sourcePath : string)
    (files : list string)
    (Hret : value (determineModifiedFiles svc env context token sourcePath)
            = Ok (Some files)) :
  let run := determineModifiedFiles svc env context token sourcePath in
  let answers := answersOf svc env context token in
  let warning := warningOf context in
  (In warning (trace run)
   <-> forall i, 1 <= i < MAX_PAGE -> fullPage (answers i))
  /\ (forall pages,
         (forall i, 1 <= i < MAX_PAGE ->
                    answers i = Ok (Some (pages i)) /\ pages i <> []) ->
         emptyPage (answers MAX_PAGE) ->
         In warning (trace run)
         /\ files = firstOccurrences
                      (concat (map (fun i => keptNames sourcePath (pages i))
                                 (seq 1 (MAX_PAGE - 1))))).
Proof.
  cbv zeta.
  assert (Hrun := determineModifiedFiles_returns _ _ _ _ _ _ Hret).
  rewrite Hrun in Hret |- *.
  assert (Hwarn := resolution_warning env context token
                     (answersOf svc env context token) sourcePath files Hret).
  cbv zeta in Hwarn.
  rewrite (readPages_reaches _ MAX_PAGE 1 (MAX_PAGE - 1)) in Hwarn
    by (unfold MAX_PAGE; lia).
  change (1 + (MAX_PAGE - 1)) with MAX_PAGE in Hwarn.
  split; [exact Hwarn |].
  intros pages Hfull Hempty. split.
  - apply Hwarn. intros i Hi. destruct (Hfull i Hi) as [Hanswer Hne].
    destruct (pages i) as [| e l] eqn:Hpage; [congruence |].
    exists e, l. exact Hanswer.
  - apply resolution_value in Hret.
    rewrite Hret, (readPages_stops _ pages MAX_PAGE 1 (MAX_PAGE - 1)).
    + now rewrite map_map.
    + unfold MAX_PAGE. lia.
    + intros i Hi. apply Hfull. unfold MAX_PAGE in *. lia.
    + intros _. now apply emptyPage_not_full.
Qed.

Lemma C9_witness :
  value (determineModifiedFiles (Sample.services Sample.nine_pages)
           Sample.linux (Sample.event "pull_request") "my_test_token"
           "src/main/java")
  = Ok (Some ["src/main/java/AvoidCatchingThrowableSample.java";
              "src/main/java/NewFile.java"; "src/main/java/ChangedFile.java"])
  /\ In (CoreWarning
           "The pull request 1 is too big - not all changed files will be analyzed!")
        (trace (determineModifiedFiles (Sample.services Sample.nine_pages)
                  Sample.linux (Sample.event "pull_request") "my_test_token"
                  "src/main/java")).
Proof.
  split; [reflexivity |].
  destruct (C9_warning_when_counter_reaches_max (P := posix)
              (Sample.services Sample.nine_pages) Sample.linux
              (Sample.event "pull_request") "my_test_token" "src/main/java"
              ["src/main/java/AvoidCatchingThrowableSample.java";
               "src/main/java/NewFile.java"; "src/main/java/ChangedFile.java"]
              eq_refl) as [_ Hcomplete].
  apply (Hcomplete Sample.nine_pages).
  - intros i Hi. unfold MAX_PAGE in Hi.
    assert (Hcases : i = 1 \/ i = 2 \/ i = 3 \/ i = 4 \/ i = 5 \/ i = 6
                     \/ i = 7 \/ i = 8 \/ i = 9) by lia.
    repeat (destruct Hcases as [-> | Hcases];
            [split; [reflexivity | discriminate] |]).
    subst i. split; [reflexivity | discriminate].
  - right. reflexivity.
Defined.

Lemma pullRequestPage_ok svc env context token pages i :
  pulls_listFiles svc (apiClient env token) (context_repo context)
    (number context) 30 i = Ok (pages i) ->
  pullRequestPage svc env context token i = Ok (Some (pages i)).
Proof. intros H. unfold pullRequestPage. now rewrite H. Qed.

(** C1.  In the [pull_request] branch, [determineModifiedFiles] requests
    the pages 1, 2, ... of [listFiles], 30 entries a page, up to
    [MAX_PAGE = 10].  When page [j] is the first to come back empty, the
    requests are those for the pages 1 to [j] and no later page is
    requested; the result is the set of the names kept from the pages
    before [j], without repetition.  When none of the [MAX_PAGE] pages is
    empty, all of them are requested, the warning is emitted after them,
    and the run still returns the names gathered from all of them. *)
Theorem C1_pull_request_pagination {P : PathModule} (svc : Services)
    (env : Env) (context : Context) (token sourcePath : string)
    (pages : nat -> list DiffEntry)
    (Htoken : token <> "")
    (Hevent : eventName context = "pull_request") :
  let run := determineModifiedFiles svc env context token sourcePath in
  let listFiles := fun page =>
    pulls_listFiles svc (apiClient env token) (context_repo context)
      (number context) 30 page in
  let request := fun page =>
    PullsListFiles (apiClient env token) (context_repo context)
      (number context) 30 page in
  let gathered := fun m =>
    firstOccurrences
      (concat (map (fun i => keptNames sourcePath (pages i)) (seq 1 m))) in
  let warning :=
    CoreWarning
      ("The pull request " ++ Js.of_N (number context)
       ++ " is too big - not all changed files will be analyzed!") in
  MAX_PAGE = 10
  /\ (forall j,
         1 <= j <= MAX_PAGE ->
         (forall i, 1 <= i < j -> listFiles i = Ok (pages i) /\ pages i <> []) ->
         listFiles j = Ok [] ->
         value run = Ok (Some (gathered (j - 1)))
         /\ trace run
            = (map request (seq 1 j)
                 ++ (if (MAX_PAGE <=? j)%nat then [warning] else []))%list
         /\ forall p, j < p -> ~ In (request p) (trace run))
  /\ ((forall i, 1 <= i <= MAX_PAGE ->
                 listFiles i = Ok (pages i) /\ pages i <> []) ->
      value run = Ok (Some (gathered MAX_PAGE))
      /\ trace run = (map request (seq 1 MAX_PAGE) ++ [warning])%list).
Proof.
  cbv zeta.
  rewrite (determineModifiedFiles_pull_request _ _ _ _ _ Htoken Hevent).
  rewrite finish_loopOutcome. unfold resolution. cbv zeta.
  split; [reflexivity | split].
  - intros j Hj Hfull Hempty.
    rewrite (readPages_stops (pullRequestPage svc env context token) pages
               MAX_PAGE 1 (j - 1)).
    + rewrite length_map, length_seq.
      replace (j - 1 =? MAX_PAGE)%nat with false
        by (symmetry; apply Nat.eqb_neq; lia).
      replace (S (j - 1)) with j by lia.
      assert (Hstop : pullRequestPage svc env context token j = Ok (Some []))
        by (unfold pullRequestPage; now rewrite Hempty).
      rewrite Hstop. cbn [value fst trace snd].
      rewrite map_map. split; [reflexivity | split; [reflexivity |]].
      intros p Hp Hin. apply in_app_or in Hin. destruct Hin as [Hin | Hin].
      * apply in_map_iff in Hin. destruct Hin as (i & Heq & Hi).
        apply in_seq in Hi. injection Heq as Heq. lia.
      * destruct (MAX_PAGE <=? j)%nat; [| destruct Hin].
        destruct Hin as [Heq | []]. discriminate.
    + lia.
    + intros i Hi. destruct (Hfull i ltac:(lia)) as [Hok Hne].
      split; [now apply pullRequestPage_ok | exact Hne].
    + intros _. replace (1 + (j - 1)) with j by lia.
      unfold pullRequestPage. rewrite Hempty.
      intros (e & l & H). discriminate.
  - intros Hfull.
    rewrite (readPages_stops (pullRequestPage svc env context token) pages
               MAX_PAGE 1 MAX_PAGE).
    + rewrite length_map, length_seq, Nat.eqb_refl, map_map.
      split; reflexivity.
    + lia.
    + intros i Hi. destruct (Hfull i ltac:(lia)) as [Hok Hne].
      split; [now apply pullRequestPage_ok | exact Hne].
    + lia.
Qed.

Lemma C1_witness :
  "my_test_token" <> ""
  /\ eventName (Sample.event "pull_request") = "pull_request"
  /\ value (determineModifiedFiles (Sample.services Sample.one_page)
           Sample.linux (Sample.event "pull_request") "my_test_token"
           "src/main/java")
  = Ok (Some ["src/main/java/AvoidCatchingThrowableSample.java";
              "src/main/java/NewFile.java"; "src/main/java/ChangedFile.java"])
  /\ trace (determineModifiedFiles (Sample.services Sample.one_page)
              Sample.linux (Sample.event "pull_request") "my_test_token"
              "src/main/java")
     = [PullsListFiles (mkOctokit "https://api.github.com"
                          (Some "token my_test_token") false)
          (mkRepo "pmd" "pmd-github-action-tests") 1 30 1;
        PullsListFiles (mkOctokit "https://api.github.com"
                          (Some "token my_test_token") false)
          (mkRepo "pmd" "pmd-github-action-tests") 1 30 2].
Proof.
  split; [discriminate | split; [reflexivity |]].
  destruct (C1_pull_request_pagination (P := posix)
              (Sample.services Sample.one_page) Sample.linux
              (Sample.event "pull_request") "my_test_token" "src/main/java"
              Sample.one_page ltac:(discriminate) eq_refl)
    as (_ & Hstop & _).
  destruct (Hstop 2) as (Hvalue & Htrace & _).
  - unfold MAX_PAGE. lia.
  - intros i Hi. assert (i = 1) as -> by lia.
    split; [reflexivity | discriminate].
  - reflexivity.
  - split; [exact Hvalue | exact Htrace].
Defined.

(** * Further properties *)

(** ** ArtifactResolver *)

Lemma determinePmdRelease_run svc env version token :
  determinePmdRelease svc env version token
  = call (registryLookup env token version)
      (registryAnswer svc env token version).
Proof.
  unfold determinePmdRelease, registryLookup, registryAnswer, registryClient.
  cbv zeta.
  destruct (String.eqb_spec (defaults_baseUrl env) PUBLIC_GITHUB_API_URL)
    as [-> | Hne].
  - now destruct (jest env), (version =? "latest").
  - now destruct (jest env), (version =? "latest").
Qed.

(** Without a download URL, [downloadPmd] is [downloadPmdRelease]. *)
Lemma downloadPmd_release {P : PathModule} svc env version token downloadUrl :
  noDownloadUrl downloadUrl ->
  downloadPmd svc env version token downloadUrl
  = downloadPmdRelease svc env version token.
Proof.
  intros [-> | ->]; unfold downloadPmd; cbn;
    now rewrite ?andb_false_r.
Qed.

(** With one, and a version other than [latest], it is [downloadPmdUrl]. *)
Lemma downloadPmd_url {P : PathModule} svc env version token url :
  url <> "" -> version <> "latest" ->
  downloadPmd svc env version token (Some url)
  = downloadPmdUrl svc version url.
Proof.
  intros Hurl Hversion. unfold downloadPmd. cbn.
  apply String.eqb_neq in Hurl, Hversion. now rewrite Hurl, Hversion.
Qed.

Lemma prefix_append p v : String.prefix p (p ++ v) = true.
Proof.
  induction p as [| a p IH]; simpl.
  - now destruct v.
  - destruct (Ascii.ascii_dec a a) as [_ | Hne]; [exact IH | now destruct Hne].
Qed.

Lemma drop_append p v : Js.drop (String.length p) (p ++ v) = v.
Proof. induction p as [| a p IH]; simpl; trivial. Qed.

(** A pattern at the start of a string is the occurrence that
    [String.prototype.replace] replaces. *)
Lemma replace_at_start pat rep v : Js.replace pat rep (pat ++ v) = rep ++ v.
Proof.
  assert (Hunfold : forall s,
             Js.replace pat rep s
             = if String.prefix pat s
               then rep ++ Js.drop (String.length pat) s
               else match s with
                    | EmptyString => EmptyString
                    | String a r => String a (Js.replace pat rep r)
                    end)
    by (intros s; now destruct s).
  now rewrite Hunfold, prefix_append, drop_append.
Qed.

Lemma getDownloadURL_asset release url :
  getDownloadURL release = Ok url ->
  exists a, In a (assets release)
            /\ distributionAsset (getPmdVersionFromRelease release) a
            /\ browser_download_url a = url.
Proof.
  unfold getDownloadURL.
  destruct (filter _ (assets release)) as [| a rest] eqn:Hf; cbn;
    [discriminate |].
  intros [= <-]. exists a.
  assert (Hin : In a (a :: rest)) by now left.
  rewrite <- Hf in Hin. apply filter_In in Hin. destruct Hin as [Hin Ha].
  apply distributionAsset_test in Ha. auto.
Qed.

(** X1.  Without a download URL ([undefined] or empty), a version that the
    tool cache holds is answered from the cache alone: the only external
    call is the cache lookup, no registry is asked and nothing is
    downloaded, and the requested version is returned with the cached
    directory. *)
Theorem X1_cache_hit_skips_network {P : PathModule} (svc : Services)
    (env : Env) (version token cached : string) (downloadUrl : option string)
    (Hurl : noDownloadUrl downloadUrl)
    (Hfind : tc_find svc "pmd" version = Ok cached)
    (Hhit : cached <> "") :
  downloadPmd svc env version token downloadUrl
  = (Ok {| version := version;
           path := join [cached; "pmd-bin-" ++ version] |},
     [TcFind "pmd" version]).
Proof.
  rewrite (downloadPmd_release _ _ _ _ _ Hurl).
  unfold downloadPmdRelease. cbv zeta. unfold call at 1. rewrite Hfind.
  apply String.eqb_neq in Hhit. unfold bind at 1. now rewrite Hhit.
Qed.

Lemma X1_witness :
  noDownloadUrl (Some "")
  /\ downloadPmd (Fixture.services "/cache/pmd/6.39.0/x64" []) Sample.linux
       "6.39.0" "my_test_token" (Some "")
     = (Ok {| version := "6.39.0";
              path := "/cache/pmd/6.39.0/x64/pmd-bin-6.39.0" |},
        [TcFind "pmd" "6.39.0"]).
Proof.
  assert (Hurl : noDownloadUrl (Some "")) by now right.
  split; [exact Hurl |].
  exact (X1_cache_hit_skips_network (P := posix)
           (Fixture.services "/cache/pmd/6.39.0/x64" []) Sample.linux
           "6.39.0" "my_test_token" "/cache/pmd/6.39.0/x64" (Some "") Hurl
           eq_refl ltac:(discriminate)).
Defined.

(** X2.  On a cache miss without download URL, when every step succeeds,
    the calls are, in this order: the cache lookup, the registry lookup,
    the download of the distribution asset, its extraction, and the caching
    of the extracted directory under the version taken from the tag of the
    release; that version, not the requested one, is returned.  When the
    registry answers with the tag that was asked for, it is the requested
    version. *)
Theorem X2_cache_miss_resolves_release {P : PathModule} (svc : Services)
    (env : Env) (version token : string) (downloadUrl : option string)
    (release : Release) (url zip folder cached : string)
    (Hurl : noDownloadUrl downloadUrl)
    (Hfind : tc_find svc "pmd" version = Ok "")
    (Hregistry : registryAnswer svc env token version = Ok release)
    (Hasset : getDownloadURL release = Ok url)
    (Hdownload : tc_downloadTool svc url = Ok zip)
    (Hextract : tc_extractZip svc zip = Ok folder)
    (Hcache : tc_cacheDir svc folder "pmd" (getPmdVersionFromRelease release)
              = Ok cached) :
  let resolved := getPmdVersionFromRelease release in
  downloadPmd svc env version token downloadUrl
  = (Ok {| version := resolved;
           path := join [cached; "pmd-bin-" ++ resolved] |},
     [TcFind "pmd" version; registryLookup env token version;
      TcDownloadTool url; TcExtractZip zip; TcCacheDir folder "pmd" resolved])
  /\ (tag_name release = "pmd_releases/" ++ version -> resolved = version).
Proof.
  intros resolved. split.
  - rewrite (downloadPmd_release _ _ _ _ _ Hurl).
    unfold downloadPmdRelease. cbv zeta. rewrite determinePmdRelease_run.
    unfold call, lift, bind, ret. rewrite Hfind. cbn [String.eqb].
    rewrite Hregistry, Hasset, Hdownload, Hextract. fold resolved.
    unfold resolved at 1 2. rewrite Hcache. reflexivity.
  - intros Htag. unfold resolved, getPmdVersionFromRelease. rewrite Htag.
    apply replace_at_start.
Qed.

Lemma X2_witness :
  downloadPmd (Fixture.services "" []) Fixture.enterprise "latest"
    "my_test_token" None
  = (Ok {| version := "7.0.0-rc3";
           path := "/cache/pmd/7.0.0-rc3/x64/pmd-bin-7.0.0-rc3" |},
     [TcFind "pmd" "latest";
      GetLatestRelease (mkOctokit "https://api.github.com" None false)
        (mkRepo "pmd" "pmd");
      TcDownloadTool "https://github.com/pmd/bin.zip";
      TcExtractZip "/tmp/pmd.zip";
      TcCacheDir "/tmp/pmd" "pmd" "7.0.0-rc3"]).
Proof.
  apply (X2_cache_miss_resolves_release (P := posix) (Fixture.services "" [])
           Fixture.enterprise "latest" "my_test_token" None Fixture.release
           "https://github.com/pmd/bin.zip" "/tmp/pmd.zip" "/tmp/pmd"
           "/cache/pmd/7.0.0-rc3/x64"
           (or_introl eq_refl) eq_refl eq_refl eq_refl eq_refl eq_refl
           eq_refl).
Defined.

(** An event of [downloadPmdRelease] is the cache lookup, or the registry
    lookup after a miss, or comes after a release with a distribution
    asset was found. *)
Lemma downloadPmdRelease_events {P : PathModule} svc env version token e :
  In e (trace (downloadPmdRelease svc env version token)) ->
  e = TcFind "pmd" version
  \/ tc_find svc "pmd" version = Ok ""
     /\ (e = registryLookup env token version
         \/ exists release url,
             registryAnswer svc env token version = Ok release
             /\ getDownloadURL release = Ok url
             /\ (e = TcDownloadTool url
                 \/ (exists zip, e = TcExtractZip zip)
                 \/ (exists folder, e = TcCacheDir folder "pmd"
                                      (getPmdVersionFromRelease release)))).
Proof.
  unfold downloadPmdRelease. cbv zeta. rewrite determinePmdRelease_run.
  unfold trace, call, lift, bind, ret. intros H.
  destruct (tc_find svc "pmd" version) as [cached |] eqn:Hfind; cbn in H;
    [| intuition].
  destruct (String.eqb_spec cached "") as [-> | Hhit]; cbn in H; [| intuition].
  destruct (registryAnswer svc env token version) as [release |] eqn:Hreg;
    cbn in H; [| intuition].
  destruct (getDownloadURL release) as [url |] eqn:Hurl; cbn in H;
    [| intuition].
  assert (Hafter :
            forall e', e' = TcDownloadTool url
                       \/ (exists zip, e' = TcExtractZip zip)
                       \/ (exists folder,
                              e' = TcCacheDir folder "pmd"
                                     (getPmdVersionFromRelease release)) ->
                       e' = TcFind "pmd" version
                       \/ Ok "" = Ok ""
                          /\ (e' = registryLookup env token version
                              \/ exists release0 url0,
                                  Ok release = Ok release0
                                  /\ getDownloadURL release0 = Ok url0
                                  /\ (e' = TcDownloadTool url0
                                      \/ (exists zip, e' = TcExtractZip zip)
                                      \/ (exists folder,
                                             e' = TcCacheDir folder "pmd"
                                                    (getPmdVersionFromRelease
                                                       release0))))).
  { intros e' He'. right. split; trivial. right. exists release, url. auto. }
  answers H;
    repeat (destruct H as [<- | H];
            [first [now left
                   | right; split; trivial; now left
                   | apply Hafter; eauto] |]).
  all: destruct H.
Qed.

Lemma downloadPmdUrl_events {P : PathModule} svc version url e :
  In e (trace (downloadPmdUrl svc version url)) ->
  e = TcDownloadTool url
  \/ (exists zip, e = TcExtractZip zip)
  \/ (exists folder, e = FsReaddir folder).
Proof.
  unfold downloadPmdUrl. cbv zeta. unfold trace, call, bind, ret, throw.
  intros H. answers H; intuition eauto.
Qed.

(** The three ways [downloadPmd] can go. *)
Lemma downloadPmd_cases {P : PathModule} svc env version token downloadUrl :
  (noDownloadUrl downloadUrl
   /\ downloadPmd svc env version token downloadUrl
      = downloadPmdRelease svc env version token)
  \/ (exists url, downloadUrl = Some url /\ url <> "" /\ version <> "latest"
                  /\ downloadPmd svc env version token downloadUrl
                     = downloadPmdUrl svc version url)
  \/ (exists url, downloadUrl = Some url /\ url <> "" /\ version = "latest"
                  /\ trace (downloadPmd svc env version token downloadUrl)
                     = []).
Proof.
  destruct downloadUrl as [url |].
  - destruct (String.eqb_spec url "") as [-> | Hurl].
    + left. split; [now right |]. apply downloadPmd_release. now right.
    + right. destruct (String.eqb_spec version "latest") as [-> | Hversion].
      * right. exists url. repeat split; trivial.
        unfold downloadPmd. cbn. apply String.eqb_neq in Hurl.
        now rewrite Hurl.
      * left. exists url. repeat split; trivial.
        now apply downloadPmd_url.
  - left. split; [now left |]. apply downloadPmd_release. now left.
Qed.

(** X3.  Whatever the services answer, [downloadPmd] downloads nothing but
    the given download URL (when there is one, and the version is not
    [latest]) or, after a cache miss, the [browser_download_url] of an
    asset of the release the registry answered that is named
    [pmd-bin-<version>.zip] or [pmd-dist-<version>-bin.zip]. *)
Theorem X3_downloads_only_the_distribution {P : PathModule} (svc : Services)
    (env : Env) (version token : string) (downloadUrl : option string)
    (u : string)
    (Hdownload : In (TcDownloadTool u)
                   (trace (downloadPmd svc env version token downloadUrl))) :
  (downloadUrl = Some u /\ u <> "" /\ version <> "latest")
  \/ (noDownloadUrl downloadUrl
      /\ tc_find svc "pmd" version = Ok ""
      /\ exists release a,
          registryAnswer svc env token version = Ok release
          /\ In a (assets release)
          /\ distributionAsset (getPmdVersionFromRelease release) a
          /\ browser_download_url a = u).
Proof.
  destruct (downloadPmd_cases svc env version token downloadUrl)
    as [[Hno Hrun] | [(url & -> & Hurl & Hversion & Hrun)
                     | (url & -> & Hurl & Hversion & Hrun)]];
    rewrite Hrun in Hdownload.
  - right. split; trivial.
    apply downloadPmdRelease_events in Hdownload.
    destruct Hdownload as [Heq | [Hfind [Heq | Hafter]]].
    + discriminate.
    + unfold registryLookup in Heq. now destruct (version =? "latest").
    + split; trivial. destruct Hafter as (release & url & Hreg & Hurl & He).
      destruct (getDownloadURL_asset release url Hurl) as (a & Hin & Ha & Hu).
      exists release, a. repeat split; trivial.
      destruct He as [[= ->] | [(zip & He) | (folder & He)]];
        trivial; discriminate.
  - left. apply downloadPmdUrl_events in Hdownload.
    destruct Hdownload as [[= ->] | [(zip & He) | (folder & He)]];
      try discriminate.
    auto.
  - destruct Hdownload.
Qed.

Lemma X3_witness :
  In (TcDownloadTool "https://github.com/pmd/bin.zip")
     (trace (downloadPmd (Fixture.services "" []) Sample.linux "7.0.0-rc3"
               "my_test_token" None))
  /\ exists release a,
      registryAnswer (Fixture.services "" []) Sample.linux "my_test_token"
        "7.0.0-rc3" = Ok release
      /\ In a (assets release)
      /\ browser_download_url a = "https://github.com/pmd/bin.zip".
Proof.
  assert (Hin : In (TcDownloadTool "https://github.com/pmd/bin.zip")
                  (trace (downloadPmd (P := posix) (Fixture.services "" [])
                            Sample.linux "7.0.0-rc3" "my_test_token" None))).
  { cbn. right. right. now left. }
  split; [exact Hin |].
  destruct (X3_downloads_only_the_distribution (P := posix)
              (Fixture.services "" []) Sample.linux "7.0.0-rc3"
              "my_test_token" None "https://github.com/pmd/bin.zip" Hin)
    as [(H & _) | (_ & _ & release & a & Hreg & Ha & _ & Hu)].
  - discriminate.
  - exists release, a. auto.
Defined.

(** X4.  Every lookup [downloadPmd] makes in the release registry goes to
    the repository [pmd/pmd] on the public endpoint, whatever the default
    endpoint is; the token is passed exactly when the default endpoint is
    the public one, and no credentials at all otherwise.  The latest
    release is asked for exactly for the version [latest]; any other
    version is looked up by the tag [pmd_releases/<version>]. *)
Theorem X4_registry_lookup_policy {P : PathModule} (svc : Services)
    (env : Env) (version token : string) (downloadUrl : option string)
    (e : Event)
    (Hevent : In e (trace (downloadPmd svc env version token downloadUrl))) :
  let policy := fun (o : Octokit) (r : Repo) =>
    r = mkRepo "pmd" "pmd"
    /\ baseUrl o = "https://api.github.com"
    /\ (defaults_baseUrl env = "https://api.github.com" -> auth o = Some token)
    /\ (defaults_baseUrl env <> "https://api.github.com" -> auth o = None) in
  (forall o r, e = GetLatestRelease o r -> version = "latest" /\ policy o r)
  /\ (forall o r tag,
         e = GetReleaseByTag o r tag ->
         version <> "latest" /\ tag = "pmd_releases/" ++ version
         /\ policy o r).
Proof.
  intros policy.
  assert (Hpolicy : policy (registryClient env token) (mkRepo "pmd" "pmd")).
  { unfold policy, registryClient, PUBLIC_GITHUB_API_URL. cbn.
    destruct (String.eqb_spec (defaults_baseUrl env) "https://api.github.com");
      repeat split; trivial; intros; congruence. }
  assert (Hlookup : e = registryLookup env token version
                    \/ (forall o r, e <> GetLatestRelease o r)
                       /\ (forall o r tag, e <> GetReleaseByTag o r tag)).
  { destruct (downloadPmd_cases svc env version token downloadUrl)
      as [[_ Hrun] | [(url & _ & _ & _ & Hrun) | (url & _ & _ & _ & Hrun)]];
      rewrite Hrun in Hevent.
    - apply downloadPmdRelease_events in Hevent.
      destruct Hevent as [-> | [_ [-> | (release & url & _ & _ & He)]]].
      + right. split; intros; discriminate.
      + now left.
      + right.
        destruct He as [-> | [(zip & ->) | (folder & ->)]];
          split; intros; discriminate.
    - apply downloadPmdUrl_events in Hevent. right.
      destruct Hevent as [-> | [(zip & ->) | (folder & ->)]];
        split; intros; discriminate.
    - destruct Hevent. }
  destruct Hlookup as [-> | [Hlatest Htag]].
  - unfold registryLookup.
    destruct (String.eqb_spec version "latest") as [-> | Hversion]; split.
    + intros o r [= <- <-]. auto.
    + intros o r tag H. discriminate.
    + intros o r H. discriminate.
    + intros o r tag [= <- <- <-]. auto.
  - split.
    + intros o r H. now destruct (Hlatest o r).
    + intros o r tag H. now destruct (Htag o r tag).
Qed.

Lemma X4_witness :
  In (GetLatestRelease (mkOctokit "https://api.github.com" None false)
        (mkRepo "pmd" "pmd"))
     (trace (downloadPmd (Fixture.services "" []) Fixture.enterprise "latest"
               "my_test_token" None))
  /\ auth (mkOctokit "https://api.github.com" None false) = None.
Proof.
  assert (Hin : In (GetLatestRelease
                      (mkOctokit "https://api.github.com" None false)
                      (mkRepo "pmd" "pmd"))
                  (trace (downloadPmd (P := posix) (Fixture.services "" [])
                            Fixture.enterprise "latest" "my_test_token"
                            None))).
  { cbn. right. now left. }
  split; [exact Hin |].
  destruct (X4_registry_lookup_policy (P := posix) (Fixture.services "" [])
              Fixture.enterprise "latest" "my_test_token" None _ Hin)
    as [Hlatest _].
  destruct (Hlatest _ _ eq_refl) as (_ & _ & _ & _ & Hauth).
  apply Hauth. discriminate.
Defined.



(** ** ChangeSetResolver *)

(** With a token, a run on one of the two supported events is the
    resolution of its branch. *)
Lemma determineModifiedFiles_supported {P : PathModule} svc env context token
    sourcePath :
  token <> "" ->
  eventName context = "pull_request" \/ eventName context = "push" ->
  determineModifiedFiles svc env context token sourcePath
  = resolution (warningOf context) (requestOf env context token)
      (answersOf svc env context token) sourcePath.
Proof.
  intros Htoken Hevent. unfold warningOf, requestOf, answersOf.
  destruct Hevent as [Hevent | Hevent].
  - rewrite (determineModifiedFiles_pull_request _ _ _ _ _ Htoken Hevent).
    rewrite Hevent. apply finish_loopOutcome.
  - rewrite (determineModifiedFiles_push _ _ _ _ _ Htoken Hevent).
    rewrite Hevent. apply finish_loopOutcome.
Qed.

(** X6.  In the [push] branch, [determineModifiedFiles] requests the pages
    1, 2, ... of the comparison [before...after], 30 entries a page.  When
    page [j] is the first to come back without a file list or with an
    empty one, the requests are those for the pages 1 to [j] and the
    result is the set of the names kept from the pages before [j]; when
    none of the [MAX_PAGE] pages is empty, all are requested, the warning
    follows, and the names of all of them are returned. *)
Theorem X6_push_pagination {P : PathModule} (svc : Services) (env : Env)
    (context : Context) (token sourcePath : string)
    (pages : nat -> list DiffEntry)
    (Htoken : token <> "")
    (Hevent : eventName context = "push") :
  let run := determineModifiedFiles svc env context token sourcePath in
  let compare := fun page =>
    repos_compareCommitsWithBasehead svc (apiClient env token)
      (context_repo context) (before context ++ "..." ++ after context)
      30 page in
  let request := fun page =>
    CompareCommitsWithBasehead (apiClient env token) (context_repo context)
      (before context ++ "..." ++ after context) 30 page in
  let gathered := fun m =>
    firstOccurrences
      (concat (map (fun i => keptNames sourcePath (pages i)) (seq 1 m))) in
  let warning :=
    CoreWarning
      ("The push on " ++ ref context
       ++ " is too big - not all changed files will be analyzed!") in
  (forall j,
      1 <= j <= MAX_PAGE ->
      (forall i, 1 <= i < j ->
                 compare i = Ok (Some (pages i)) /\ pages i <> []) ->
      compare j = Ok None \/ compare j = Ok (Some []) ->
      value run = Ok (Some (gathered (j - 1)))
      /\ trace run
         = (map request (seq 1 j)
              ++ (if (MAX_PAGE <=? j)%nat then [warning] else []))%list)
  /\ ((forall i, 1 <= i <= MAX_PAGE ->
                 compare i = Ok (Some (pages i)) /\ pages i <> []) ->
      value run = Ok (Some (gathered MAX_PAGE))
      /\ trace run = (map request (seq 1 MAX_PAGE) ++ [warning])%list).
Proof.
  cbv zeta.
  rewrite (determineModifiedFiles_push _ _ _ _ _ Htoken Hevent).
  rewrite finish_loopOutcome. unfold resolution. cbv zeta. split.
  - intros j Hj Hfull Hempty.
    rewrite (readPages_stops (pushPage svc env context token) pages
               MAX_PAGE 1 (j - 1)).
    + rewrite length_map, length_seq.
      replace (j - 1 =? MAX_PAGE)%nat with false
        by (symmetry; apply Nat.eqb_neq; lia).
      replace (S (j - 1)) with j by lia.
      assert (Hstop : exists files,
                 pushPage svc env context token j = Ok files)
        by (destruct Hempty as [H | H]; unfold pushPage; rewrite H; eauto).
      destruct Hstop as (files & ->). cbn [value fst trace snd].
      rewrite map_map. split; reflexivity.
    + lia.
    + intros i Hi. apply Hfull. lia.
    + intros _. replace (1 + (j - 1)) with j by lia.
      apply emptyPage_not_full. exact Hempty.
  - intros Hfull.
    rewrite (readPages_stops (pushPage svc env context token) pages
               MAX_PAGE 1 MAX_PAGE).
    + rewrite length_map, length_seq, Nat.eqb_refl, map_map.
      split; reflexivity.
    + lia.
    + intros i Hi. apply Hfull. lia.
    + lia.
Qed.

Lemma X6_witness :
  "my_test_token" <> ""
  /\ eventName (Sample.event "push") = "push"
  /\ value (determineModifiedFiles (Fixture.services "" []) Sample.linux
              (Sample.event "push") "my_test_token" "src/main/java")
     = Ok (Some ["src/main/java/AvoidCatchingThrowableSample.java";
                 "src/main/java/NewFile.java";
                 "src/main/java/ChangedFile.java"])
  /\ trace (determineModifiedFiles (Fixture.services "" []) Sample.linux
              (Sample.event "push") "my_test_token" "src/main/java")
     = [CompareCommitsWithBasehead
          (mkOctokit "https://api.github.com" (Some "token my_test_token")
             false)
          (mkRepo "pmd" "pmd-github-action-tests") "44c1557...8a7a256" 30 1;
        CompareCommitsWithBasehead
          (mkOctokit "https://api.github.com" (Some "token my_test_token")
             false)
          (mkRepo "pmd" "pmd-github-action-tests") "44c1557...8a7a256" 30 2].
Proof.
  split; [discriminate | split; [reflexivity |]].
  destruct (X6_push_pagination (P := posix) (Fixture.services "" [])
              Sample.linux (Sample.event "push") "my_test_token"
              "src/main/java" Sample.one_page ltac:(discriminate) eq_refl)
    as [Hstop _].
  apply (Hstop 2).
  - unfold MAX_PAGE. lia.
  - intros i Hi. assert (i = 1) as -> by lia.
    split; [reflexivity | discriminate].
  - left. reflexivity.
Defined.

Lemma resolution_not_undefined {P : PathModule} warning req resp sourcePath :
  value (resolution warning req resp sourcePath) <> Ok None.
Proof.
  unfold resolution. cbv zeta.
  destruct (List.length (readPages resp MAX_PAGE 1) =? MAX_PAGE)%nat;
    [discriminate |].
  destruct (resp (S _)); discriminate.
Qed.

(** X7.  [determineModifiedFiles] returns [undefined] exactly for an event
    kind other than [pull_request] and [push]: on the two supported events
    it returns a list, be it empty, or throws.  On any other event it asks
    the API nothing and only emits the warning that names the event. *)
Theorem X7_undefined_only_for_unsupported_event {P : PathModule}
    (svc : Services) (env : Env) (context : Context)
    (token sourcePath : string)
    (Htoken : token <> "") :
  let run := determineModifiedFiles svc env context token sourcePath in
  let unsupported :=
    eventName context <> "pull_request" /\ eventName context <> "push" in
  (value run = Ok None <-> unsupported)
  /\ (unsupported ->
      trace run
      = [CoreWarning
           ("Unsupported github action event '" ++ eventName context
            ++ "' - cannot determine modified files. All files will be analyzed.")]).
Proof.
  cbv zeta. split; [split |].
  - intros Hnone.
    destruct (String.eqb_spec (eventName context) "pull_request")
      as [Hpull | Hpull];
      [| destruct (String.eqb_spec (eventName context) "push")
           as [Hpush | Hpush]]; [| | now split].
    + rewrite (determineModifiedFiles_supported _ _ _ _ _ Htoken
                 (or_introl Hpull)) in Hnone.
      now apply resolution_not_undefined in Hnone.
    + rewrite (determineModifiedFiles_supported _ _ _ _ _ Htoken
                 (or_intror Hpush)) in Hnone.
      now apply resolution_not_undefined in Hnone.
  - intros [Hpull Hpush].
    now rewrite (determineModifiedFiles_unsupported _ _ _ _ _ Htoken Hpull
                   Hpush).
  - intros [Hpull Hpush].
    now rewrite (determineModifiedFiles_unsupported _ _ _ _ _ Htoken Hpull
                   Hpush).
Qed.

Lemma X7_witness :
  "my_test_token" <> ""
  /\ value (determineModifiedFiles (Sample.services Sample.endless)
              Sample.linux (Sample.event "workflow_dispatch") "my_test_token"
              "src/main/java") = Ok None
  /\ value (determineModifiedFiles (Sample.services Sample.no_pages)
              Sample.linux (Sample.event "push") "my_test_token"
              "src/main/java") = Ok (Some []).
Proof.
  assert (Htoken : "my_test_token" <> "") by discriminate.
  split; [exact Htoken |]. split; [| reflexivity].
  apply (X7_undefined_only_for_unsupported_event (P := posix)
           (Sample.services Sample.endless) Sample.linux
           (Sample.event "workflow_dispatch") "my_test_token" "src/main/java"
           Htoken).
  split; discriminate.
Defined.

(** X8.  In both branches a failed page request ends the resolution with
    the error of the request: when the pages before [j] came back with
    entries and the request for page [j] fails, the run throws that error
    after the requests for the pages 1 to [j]; it returns no partial list,
    emits no warning and requests no further page. *)
Theorem X8_failed_page_aborts {P : PathModule} (svc : Services) (env : Env)
    (context : Context) (token sourcePath : string)
    (pages : nat -> list DiffEntry) (j : nat) (e : JsError)
    (Htoken : token <> "")
    (Hevent : eventName context = "pull_request"
              \/ eventName context = "push")
    (Hj : 1 <= j <= MAX_PAGE)
    (Hfull : forall i, 1 <= i < j ->
                       answersOf svc env context token i = Ok (Some (pages i))
                       /\ pages i <> [])
    (Hfail : answersOf svc env context token j = Throw e) :
  determineModifiedFiles svc env context token sourcePath
  = (Throw e, map (requestOf env context token) (seq 1 j)).
Proof.
  rewrite (determineModifiedFiles_supported _ _ _ _ _ Htoken Hevent).
  unfold resolution. cbv zeta.
  rewrite (readPages_stops (answersOf svc env context token) pages
             MAX_PAGE 1 (j - 1)).
  - rewrite length_map, length_seq.
    replace (j - 1 =? MAX_PAGE)%nat with false
      by (symmetry; apply Nat.eqb_neq; lia).
    replace (S (j - 1)) with j by lia. now rewrite Hfail.
  - lia.
  - intros i Hi. apply Hfull. lia.
  - intros _. replace (1 + (j - 1)) with j by lia. rewrite Hfail.
    intros (x & l & H). discriminate.
Qed.

Lemma X8_witness :
  determineModifiedFiles (Fixture.services "" []) Sample.linux
    (Sample.event "pull_request") "my_test_token" "src/main/java"
  = (Throw (ServiceError "502"),
     map (requestOf Sample.linux (Sample.event "pull_request") "my_test_token")
       [1; 2; 3]).
Proof.
  apply (X8_failed_page_aborts (P := posix) (Fixture.services "" [])
           Sample.linux (Sample.event "pull_request") "my_test_token"
           "src/main/java" (fun _ => Sample.page1) 3 (ServiceError "502")).
  - discriminate.
  - now left.
  - unfold MAX_PAGE. lia.
  - intros i Hi.
    assert (Hcases : i = 1 \/ i = 2) by lia.
    destruct Hcases as [-> | ->]; (split; [reflexivity | discriminate]).
  - reflexivity.
Defined.

(** X9.  No change is lost: when [determineModifiedFiles] returns a list,
    every entry of a page that was read whose status is added, changed or
    modified, and whose normalized filename passes the source-path test,
    has that name in the list. *)
Theorem X9_every_kept_entry_is_returned {P : PathModule} (svc : Services)
    (env : Env) (context : Context) (token sourcePath : string)
    (files : list string)
    (Hret : value (determineModifiedFiles svc env context token sourcePath)
            = Ok (Some files)) :
  let read := readPages (answersOf svc env context token) MAX_PAGE 1 in
  forall e,
    In e (concat read) ->
    status e = added \/ status e = changed \/ status e = modified ->
    underSourcePath sourcePath (normalize (filename e)) = true ->
    In (normalize (filename e)) files.
Proof.
  intros read e He Hstatus Hunder.
  rewrite (determineModifiedFiles_returns _ _ _ _ _ _ Hret) in Hret.
  apply resolution_value in Hret. fold read in Hret. rewrite Hret.
  apply firstOccurrences_In, keptNames_pages_In. exists e. auto.
Qed.

Lemma X9_witness :
  value (determineModifiedFiles (Sample.services Sample.one_page)
           Sample.linux (Sample.event "pull_request") "my_test_token" ".")
  = Ok (Some ["src/main/java/AvoidCatchingThrowableSample.java";
              "src/main/java/NewFile.java"; "src/main/java/ChangedFile.java";
              "README.md"; "src/main/java2/NewFile.java"])
  /\ In (normalize "src/main/java/./NewFile.java")
        ["src/main/java/AvoidCatchingThrowableSample.java";
         "src/main/java/NewFile.java"; "src/main/java/ChangedFile.java";
         "README.md"; "src/main/java2/NewFile.java"].
Proof.
  split; [reflexivity |].
  apply (X9_every_kept_entry_is_returned (P := posix)
           (Sample.services Sample.one_page) Sample.linux
           (Sample.event "pull_request") "my_test_token" "."
           ["src/main/java/AvoidCatchingThrowableSample.java";
            "src/main/java/NewFile.java"; "src/main/java/ChangedFile.java";
            "README.md"; "src/main/java2/NewFile.java"]
           eq_refl (mkDiffEntry "src/main/java/./NewFile.java" modified)).
  - cbn. do 6 right. now left.
  - right. right. reflexivity.
  - reflexivity.
Defined.

Lemma firstOccurrences_length l :
  List.length (firstOccurrences l) <= List.length l.
Proof.
  induction l as [| x l IH]; simpl; trivial.
  assert (H := filter_length_le (fun y => negb (y =? x)) (firstOccurrences l)).
  lia.
Qed.

Lemma keptNames_length {P : PathModule} sourcePath entries :
  List.length (keptNames sourcePath entries) <= List.length entries.
Proof.
  unfold keptNames.
  etransitivity; [apply filter_length_le |]. rewrite length_map.
  apply filter_length_le.
Qed.

Lemma keptNames_pages_length {P : PathModule} sourcePath read b :
  (forall page, In page read -> List.length page <= b) ->
  List.length (concat (map (keptNames sourcePath) read))
  <= List.length read * b.
Proof.
  induction read as [| page read IH]; intros Hb; simpl; trivial.
  rewrite length_app.
  assert (H1 := keptNames_length sourcePath page).
  assert (H2 := Hb page (or_introl eq_refl)).
  assert (H3 : List.length (concat (map (keptNames sourcePath) read))
               <= List.length read * b)
    by (apply IH; intros p Hp; apply Hb; now right).
  lia.
Qed.

(** A page that was read is the answer to a request for one of the pages
    1 to [MAX_PAGE]. *)
Lemma readPages_In resp n page l :
  In l (readPages resp n page) ->
  exists i, page <= i < page + n /\ resp i = Ok (Some l).
Proof.
  revert page. induction n as [| n IH]; intros page; simpl; [intros [] |].
  destruct (resp page) as [[[| e r] |] | err] eqn:Hresp;
    try (intros Hnone; now destruct Hnone).
  intros [<- | Hin].
  - exists page. split; [lia | exact Hresp].
  - destruct (IH (S page) Hin) as (i & Hi & Hanswer).
    exists i. split; [lia | exact Hanswer].
Qed.

(** X10.  At most 300 files: when no page that the API answers carries
    more than the 30 entries that are asked for, the list that
    [determineModifiedFiles] returns has at most [MAX_PAGE * 30 = 300]
    names. *)
Theorem X10_at_most_300_files {P : PathModule} (svc : Services) (env : Env)
    (context : Context) (token sourcePath : string) (files : list string)
    (Hret : value (determineModifiedFiles svc env context token sourcePath)
            = Ok (Some files))
    (Hsize : forall i entries,
        1 <= i <= MAX_PAGE ->
        answersOf svc env context token i = Ok (Some entries) ->
        List.length entries <= 30) :
  List.length files <= 300.
Proof.
  rewrite (determineModifiedFiles_returns _ _ _ _ _ _ Hret) in Hret.
  apply resolution_value in Hret. rewrite Hret.
  etransitivity; [apply firstOccurrences_length |].
  etransitivity; [apply (keptNames_pages_length sourcePath _ 30) |].
  - intros page Hpage. apply readPages_In in Hpage.
    destruct Hpage as (i & Hi & Hanswer).
    apply (Hsize i); trivial. unfold MAX_PAGE in *. lia.
  - assert (H := readPages_length (answersOf svc env context token)
                   MAX_PAGE 1).
    unfold MAX_PAGE in *. lia.
Qed.

Lemma X10_witness :
  value (determineModifiedFiles (Sample.services Sample.endless) Sample.linux
           (Sample.event "push") "my_test_token" "src/main/java")
  = Ok (Some ["src/main/java/AvoidCatchingThrowableSample.java";
              "src/main/java/NewFile.java"; "src/main/java/ChangedFile.java"])
  /\ List.length ["src/main/java/AvoidCatchingThrowableSample.java";
                  "src/main/java/NewFile.java";
                  "src/main/java/ChangedFile.java"] <= 300.
Proof.
  split; [reflexivity |].
  apply (X10_at_most_300_files (P := posix) (Sample.services Sample.endless)
           Sample.linux (Sample.event "push") "my_test_token" "src/main/java"
           ["src/main/java/AvoidCatchingThrowableSample.java";
            "src/main/java/NewFile.java"; "src/main/java/ChangedFile.java"]
           eq_refl).
  intros i entries _ [= <-]. cbn. lia.
Defined.

(** *** A trailing separator of the source path, on a POSIX host *)

Lemma split_not_nil c s : Js.split c s <> [].
Proof.
  destruct s as [| a s]; simpl; [discriminate |].
  destruct (Ascii.eqb a c); [discriminate |].
  destruct (Js.split c s); discriminate.
Qed.

Lemma split_append_separator s :
  Js.split "/" (s ++ "/") = (Js.split "/" s ++ [""])%list.
Proof.
  induction s as [| a s IH]; simpl; trivial.
  destruct (Ascii.eqb a "/").
  - now rewrite IH.
  - rewrite IH. destruct (Js.split "/" s) as [| h t] eqn:Hsplit; trivial.
    now destruct (split_not_nil "/" s).
Qed.

Lemma normalizeSegments_empty_last allowAboveRoot segs res :
  PosixPath.normalizeSegments allowAboveRoot (segs ++ [""]) res
  = PosixPath.normalizeSegments allowAboveRoot segs res.
Proof.
  revert res. induction segs as [| seg segs IH]; intros res; simpl; trivial.
  destruct ((seg =? "") || (seg =? ".")); [apply IH |].
  destruct (seg =? ".."); [| apply IH].
  destruct res as [| top res]; [apply IH |].
  destruct (top =? ".."); apply IH.
Qed.

(** One more separator after a trailing one changes nothing. *)
Lemma normalize_trailing_separators path :
  PosixPath.endsWithSlash path = true ->
  PosixPath.normalize (path ++ "/") = PosixPath.normalize path.
Proof.
  intros Htrail. unfold PosixPath.normalize.
  rewrite endsWithSlash_app, Htrail, split_append_separator,
    normalizeSegments_empty_last.
  destruct path as [| a path]; [discriminate |].
  assert (Hstart : Js.startsWith (String a path ++ "/") "/"
                   = Js.startsWith (String a path) "/").
  { unfold Js.startsWith. cbn [String.prefix String.append].
    destruct (Ascii.ascii_dec "/" a); trivial.
    now destruct path. }
  now rewrite Hstart.
Qed.

Lemma extractFilenames_trailing_separator allFiles page sourcePath :
  sourcePath <> "." ->
  extractFilenames (P := posix) allFiles page (sourcePath ++ "/")
  = extractFilenames (P := posix) allFiles page sourcePath.
Proof.
  intros Hdot. unfold extractFilenames. cbn [normalize posix].
  apply String.eqb_neq in Hdot. rewrite Hdot.
  assert (Hslash : (sourcePath ++ "/" =? ".") = false).
  { apply String.eqb_neq. intros H.
    assert (Hends := endsWithSlash_app sourcePath). rewrite H in Hends.
    discriminate. }
  rewrite Hslash. cbn [negb].
  now rewrite (normalize_trailing_separators (sourcePath ++ "/")
                 (endsWithSlash_app sourcePath)).
Qed.

Lemma pullRequestLoop_sourcePath {P : PathModule} svc context octokit
    sourcePath sourcePath' fuel page s :
  (forall allFiles p, extractFilenames allFiles p sourcePath
                      = extractFilenames allFiles p sourcePath') ->
  pullRequestLoop svc context octokit sourcePath fuel page s
  = pullRequestLoop svc context octokit sourcePath' fuel page s.
Proof.
  intros Hsame. revert page s.
  induction fuel as [| fuel IH]; intros page s; simpl; trivial.
  destruct (page <=? MAX_PAGE)%nat; trivial. unfold bind, call.
  destruct (pulls_listFiles svc _ _ _ _ _) as [allFiles | err]; trivial.
  destruct (List.length allFiles =? 0)%nat; trivial.
  now rewrite Hsame, IH.
Qed.

Lemma pushLoop_sourcePath {P : PathModule} svc context octokit sourcePath
    sourcePath' fuel page s :
  (forall allFiles p, extractFilenames allFiles p sourcePath
                      = extractFilenames allFiles p sourcePath') ->
  pushLoop svc context octokit sourcePath fuel page s
  = pushLoop svc context octokit sourcePath' fuel page s.
Proof.
  intros Hsame. revert page s.
  induction fuel as [| fuel IH]; intros page s; simpl; trivial.
  destruct (page <=? MAX_PAGE)%nat; trivial. unfold bind, call.
  destruct (repos_compareCommitsWithBasehead svc _ _ _ _ _)
    as [[allFiles |] | err]; trivial.
  destruct (List.length allFiles =? 0)%nat; trivial.
  now rewrite Hsame, IH.
Qed.

(** X11.  On a POSIX host a separator at the end of the source path makes
    no difference: for every source path but [.], [determineModifiedFiles]
    does and returns the same with [<sourcePath>/] as with [<sourcePath>]. *)
Theorem X11_trailing_separator_is_irrelevant (svc : Services) (env : Env)
    (context : Context) (token sourcePath : string)
    (Hdot : sourcePath <> ".") :
  determineModifiedFiles (P := posix) svc env context token
    (sourcePath ++ "/")
  = determineModifiedFiles (P := posix) svc env context token sourcePath.
Proof.
  unfold determineModifiedFiles.
  assert (Hsame : forall allFiles p,
             extractFilenames (P := posix) allFiles p (sourcePath ++ "/")
             = extractFilenames (P := posix) allFiles p sourcePath)
    by (intros; now apply extractFilenames_trailing_separator).
  destruct (getOctokit env token) as [[octokit |] t]; cbn [bind]; trivial.
  now rewrite (pullRequestLoop_sourcePath _ _ _ _ _ _ _ _ Hsame),
    (pushLoop_sourcePath _ _ _ _ _ _ _ _ Hsame).
Qed.

Lemma X11_witness :
  "src/main/java" <> "."
  /\ determineModifiedFiles (Sample.services Sample.one_page) Sample.linux
       (Sample.event "push") "my_test_token" "src/main/java/"
     = determineModifiedFiles (Sample.services Sample.one_page) Sample.linux
         (Sample.event "push") "my_test_token" "src/main/java".
Proof.
  assert (Hdot : "src/main/java" <> ".") by discriminate.
  split; [exact Hdot |].
  exact (X11_trailing_separator_is_irrelevant
           (Sample.services Sample.one_page) Sample.linux
           (Sample.event "push") "my_test_token" "src/main/java" Hdot).
Defined.

(** ** CommandBuilder *)



(** X13.  For an accepted version and an explicit path, [executePmd]
    makes exactly one external call, the launch, with [ignoreReturnCode]
    set, and returns what the launcher answers: an exit code other than 0
    is part of the value returned and is not turned into an error. *)
Theorem X13_exit_code_is_returned {P : PathModule} (svc : Services)
    (env : Env) (pmdInfo : PmdInfo) (sourcePath : string)
    (ruleset reportFormat reportFile minimumPriority : string)
    (sv : Semver.SemVer)
    (Hvalid : Semver.parse (version pmdInfo) = Ok sv) :
  let run := executePmd svc env pmdInfo (SourcePath sourcePath) ruleset
               reportFormat reportFile minimumPriority in
  exists commandLine args,
    trace run = [ExecGetExecOutput commandLine args true]
    /\ value run = exec_getExecOutput svc commandLine args true
    /\ forall output,
        exec_getExecOutput svc commandLine args true = Ok output ->
        value run = Ok output.
Proof.
  intros run. unfold run.
  rewrite (executePmd_valid svc env pmdInfo (SourcePath sourcePath) ruleset
             reportFormat reportFile minimumPriority sv Hvalid).
  unfold launch. eexists. eexists. cbn. split; [reflexivity |].
  split; [reflexivity | trivial].
Qed.

Lemma X13_witness :
  Semver.parse "6.55.0" = Ok (Semver.mkSemVer 6 55 0 [] [])
  /\ exists commandLine args,
      trace (executePmd (Fixture.services "" []) Sample.linux
               (mkPmdInfo "6.55.0" "/opt/pmd") (SourcePath ".")
               "ruleset.xml" "sarif" "pmd-report.sarif" "5")
      = [ExecGetExecOutput commandLine args true]
      /\ value (executePmd (Fixture.services "" []) Sample.linux
                  (mkPmdInfo "6.55.0" "/opt/pmd") (SourcePath ".")
                  "ruleset.xml" "sarif" "pmd-report.sarif" "5")
         = Ok (mkExecOutput 4 "" "").
Proof.
  split; [reflexivity |].
  destruct (X13_exit_code_is_returned (P := posix) (Fixture.services "" [])
              Sample.linux (mkPmdInfo "6.55.0" "/opt/pmd") "." "ruleset.xml"
              "sarif" "pmd-report.sarif" "5" (Semver.mkSemVer 6 55 0 [] [])
              eq_refl) as (commandLine & args & Htrace & Hvalue & _).
  exists commandLine, args. split; [exact Htrace | exact Hvalue].
Defined.

(** ** Validation of the inputs *)

(** X14.  A version that [validateVersion] accepts is returned unchanged
    and is either [latest] or a version that [semver] parses and formats
    back to the same string; for such a version neither [isPmd7Cli] nor
    [useNewArgsFormat] throws.  Every other version is refused with the
    error [Invalid version]. *)
Theorem X14_validated_version_suits_policy (version : string) :
  (forall validated,
      Validator.validateVersion version = Ok validated ->
      validated = version
      /\ (version = "latest"
          \/ exists sv,
              Semver.parse version = Ok sv
              /\ SemverValid.format sv = version
              /\ isPmd7Cli version = Ok (nextGenOf sv)
              /\ useNewArgsFormat version = Ok (newSyntaxOf sv)))
  /\ (forall e,
         Validator.validateVersion version = Throw e ->
         e = Error "Invalid version" /\ version <> "latest").
Proof.
  unfold Validator.validateVersion, SemverValid.valid. split.
  - intros validated.
    destruct (String.eqb_spec version "latest") as [-> | Hlatest]; cbn [orb].
    + intros [= <-]. auto.
    + destruct (Semver.parse version) as [sv | err] eqn:Hparse;
        [| discriminate].
      destruct (String.eqb_spec (SemverValid.format sv) version)
        as [Hformat | Hformat]; [| discriminate].
      intros [= <-]. split; trivial. right. exists sv.
      repeat split; trivial.
      * now apply isPmd7Cli_parsed.
      * now apply useNewArgsFormat_parsed.
  - intros e.
    destruct (String.eqb_spec version "latest") as [-> | Hlatest]; cbn [orb];
      [discriminate |].
    destruct (match Semver.parse version with
              | Ok v => Some (SemverValid.format v)
              | Throw _ => None
              end) as [v |]; [destruct (v =? version) |];
      try discriminate; intros [= <-]; auto.
Qed.

Lemma X14_witness :
  Validator.validateVersion "7.0.0-rc3" = Ok "7.0.0-rc3"
  /\ Validator.validateVersion "v7.0.0" = Throw (Error "Invalid version")
  /\ Validator.validateVersion "7.0.0+build" = Throw (Error "Invalid version")
  /\ exists sv, Semver.parse "7.0.0-rc3" = Ok sv
                /\ isPmd7Cli "7.0.0-rc3" = Ok (nextGenOf sv).
Proof.
  split; [reflexivity | split; [reflexivity | split; [reflexivity |]]].
  destruct (X14_validated_version_suits_policy "7.0.0-rc3") as [Haccept _].
  destruct (Haccept "7.0.0-rc3" eq_refl) as [_ [Hlatest | Hparsed]].
  - discriminate.
  - destruct Hparsed as (sv & Hparse & _ & Hnext & _). eauto.
Defined.

Lemma removeSpaces_matches class s :
  Validator.matches class s = false ->
  Validator.matches class (Validator.removeSpaces s) = false.
Proof.
  induction s as [| a s IH]; cbn [Validator.removeSpaces Validator.matches];
    trivial.
  intros H. apply orb_false_iff in H. destruct H as [Ha Hs].
  destruct (Ascii.eqb a " "); cbn [Validator.matches]; [auto |].
  now rewrite Ha, IH.
Qed.

Lemma removeSpaces_no_space s :
  Validator.matches (Ascii.eqb " ") (Validator.removeSpaces s) = false.
Proof.
  induction s as [| a s IH]; cbn [Validator.removeSpaces Validator.matches];
    trivial.
  destruct (Ascii.eqb a " ") eqn:Ha; cbn [Validator.matches]; trivial.
  now rewrite (Ascii.eqb_sym " " a), Ha.
Qed.

Lemma removeSpaces_clean s :
  Validator.matches (Ascii.eqb " ") s = false -> Validator.removeSpaces s = s.
Proof.
  induction s as [| a s IH]; cbn [Validator.removeSpaces Validator.matches];
    trivial.
  intros H. apply orb_false_iff in H. destruct H as [Ha Hs].
  rewrite (Ascii.eqb_sym a " "), Ha. now rewrite IH.
Qed.

(** X15.  What [validateRulesets] returns holds no space, no double quote
    and none of the characters [;], [:], ['] and [$], and it is a fixed
    point: validating it again returns it unchanged. *)
Theorem X15_validated_rulesets_are_clean (rulesets normalized : string)
    (Hvalid : Validator.validateRulesets rulesets = Ok normalized) :
  Validator.matches (Ascii.eqb " ") normalized = false
  /\ Validator.matches Validator.rulesetsClass normalized = false
  /\ Validator.validateRulesets normalized = Ok normalized.
Proof.
  unfold Validator.validateRulesets in *.
  destruct (Validator.matches Validator.rulesetsClass rulesets) eqn:Hclass;
    [discriminate |].
  injection Hvalid as <-.
  assert (Hspace := removeSpaces_no_space rulesets).
  assert (Hkept := removeSpaces_matches _ _ Hclass).
  repeat split; trivial.
  now rewrite Hkept, (removeSpaces_clean _ Hspace).
Qed.

Lemma X15_witness :
  Validator.validateRulesets "rulesets/a.xml, category/java/bestpractices.xml"
  = Ok "rulesets/a.xml,category/java/bestpractices.xml"
  /\ Validator.validateRulesets "rulesets/a.xml,category/java/bestpractices.xml"
     = Ok "rulesets/a.xml,category/java/bestpractices.xml".
Proof.
  split; [reflexivity |].
  apply (X15_validated_rulesets_are_clean
           "rulesets/a.xml, category/java/bestpractices.xml"
           "rulesets/a.xml,category/java/bestpractices.xml" eq_refl).
Defined.

(** ** The SARIF report *)

Lemma forEachLocation {ResultProps Location : Type}
    (r : Sarif.Result ResultProps Location) (ls : list Location)
    (fixed : list (Sarif.Result ResultProps Location)) :
  fold_left
    (fun fixedResults location =>
       (fixedResults
          ++ [Sarif.mkResult (Sarif.resultProps r) (Some [location])])%list)
    ls fixed
  = (fixed
       ++ map (fun x => Sarif.mkResult (Sarif.resultProps r) (Some [x])) ls)%list.
Proof.
  revert fixed. induction ls as [| x ls IH]; intros fixed; simpl.
  - now rewrite app_nil_r.
  - now rewrite IH, <- app_assoc.
Qed.

(** The two loops of [fixResults] append one result for each location. *)
Lemma forEachResult_separate {ResultProps Location : Type}
    (originalResults : option (list (Sarif.Result ResultProps Location)))
    (fixed : list (Sarif.Result ResultProps Location)) :
  Sarif.forEachResult originalResults fixed
  = (fixed ++ Sarif.separateResults originalResults)%list.
Proof.
  destruct originalResults as [l |]; simpl; [| now rewrite app_nil_r].
  revert fixed. induction l as [| r l IH]; intros fixed; simpl.
  - now rewrite app_nil_r.
  - rewrite IH. destruct (Sarif.locations r) as [ls |].
    + now rewrite forEachLocation, <- app_assoc.
    + reflexivity.
Qed.

Lemma separateResults_one_location {ResultProps Location : Type}
    (originalResults : option (list (Sarif.Result ResultProps Location))) :
  Forall (fun r => exists x, Sarif.locations r = Some [x])
    (Sarif.separateResults originalResults).
Proof.
  destruct originalResults as [l |]; simpl; [| constructor].
  induction l as [| r l IH]; simpl; [constructor |].
  apply Forall_app. split; trivial.
  destruct (Sarif.locations r) as [ls |]; [| constructor].
  apply Forall_forall. intros r' Hr'. apply in_map_iff in Hr'.
  destruct Hr' as (x & <- & _). now exists x.
Qed.

Lemma separateResults_length {ResultProps Location : Type}
    (originalResults : option (list (Sarif.Result ResultProps Location))) :
  List.length (Sarif.separateResults originalResults)
  = Sarif.locationCount originalResults.
Proof.
  destruct originalResults as [l |]; simpl; trivial.
  induction l as [| r l IH]; simpl; trivial.
  rewrite length_app, IH.
  destruct (Sarif.locations r); [now rewrite length_map | reflexivity].
Qed.

(** Results that have one location each are left as they are. *)
Lemma separateResults_fixed {ResultProps Location : Type}
    (l : list (Sarif.Result ResultProps Location)) :
  Forall (fun r => exists x, Sarif.locations r = Some [x]) l ->
  Sarif.separateResults (Some l) = l.
Proof.
  induction 1 as [| r l (x & Hx) _ IH]; simpl; trivial.
  simpl in IH. rewrite IH, Hx. destruct r as [props locs].
  simpl in Hx. subst locs. reflexivity.
Qed.

Lemma gte_fixedSince version sv :
  Semver.parse version = Ok sv ->
  Semver.gte version "6.43.0"
  = Ok (match Semver.compareSemVer sv Sarif.fixedSince with
        | Lt => false
        | _ => true
        end).
Proof. intros H. unfold Semver.gte. now rewrite H. Qed.

(** What [fixResults] does to the report of a version before 6.43.0. *)
Lemma fixResults_old {ResultProps Location RunProps : Type}
    (files : Sarif.Files ResultProps Location RunProps)
    (reportFile version : string) (sv : Semver.SemVer)
    (run : Sarif.Run ResultProps Location RunProps)
    (otherRuns : list (Sarif.Run ResultProps Location RunProps)) :
  files reportFile = Some (Ok (Sarif.mkLog (run :: otherRuns))) ->
  Sarif.tool_driver_version run = Some version ->
  Semver.parse version = Ok sv ->
  SemverOrder.precedes sv Sarif.fixedSince ->
  Sarif.fixResults files reportFile
  = Ok (Sarif.writeFileSync files reportFile
          (Sarif.mkLog
             (Sarif.mkRun (Some version)
                (Some (Sarif.separateResults (Sarif.results run)))
                (Sarif.runProps run)
              :: otherRuns))).
Proof.
  intros Hfile Hversion Hparse Hold.
  assert (Hnonempty : (version =? "") = false).
  { apply String.eqb_neq. intros ->. discriminate. }
  unfold Sarif.fixResults, Sarif.loadReport.
  rewrite Hfile. cbn [Sarif.runs]. rewrite Hversion, Hnonempty.
  rewrite (gte_fixedSince version sv Hparse).
  apply compareSemVer_Lt in Hold. rewrite Hold. cbv zeta.
  now rewrite forEachResult_separate.
Qed.

Lemma writeFileSync_read {ResultProps Location RunProps : Type}
    (files : Sarif.Files ResultProps Location RunProps) reportFile report :
  Sarif.writeFileSync files reportFile report reportFile = Some (Ok report).
Proof. unfold Sarif.writeFileSync. now rewrite String.eqb_refl. Qed.

(** X16.  For a report whose first run was made by a PMD version before
    6.43.0, [fixResults] rewrites the report file and nothing else: the
    results of the first run become one result for each location of each
    original result, in the original order, every one with exactly one
    location, so that there are as many results as there were locations
    (a result without locations is dropped); the version, the rest of
    the run and the other runs are kept.  For a version from 6.43.0 on
    the files are left as they are. *)
Theorem X16_fixResults_separates_violations
    {ResultProps Location RunProps : Type}
    (files : Sarif.Files ResultProps Location RunProps)
    (reportFile version : string) (sv : Semver.SemVer)
    (run : Sarif.Run ResultProps Location RunProps)
    (otherRuns : list (Sarif.Run ResultProps Location RunProps))
    (Hfile : files reportFile = Some (Ok (Sarif.mkLog (run :: otherRuns))))
    (Hversion : Sarif.tool_driver_version run = Some version)
    (Hparse : Semver.parse version = Ok sv) :
  (SemverOrder.precedes sv Sarif.fixedSince ->
   exists fixed,
     Sarif.fixResults files reportFile
     = Ok (Sarif.writeFileSync files reportFile
             (Sarif.mkLog
                (Sarif.mkRun (Some version) (Some fixed) (Sarif.runProps run)
                 :: otherRuns)))
     /\ fixed = Sarif.separateResults (Sarif.results run)
     /\ Forall (fun r => exists x, Sarif.locations r = Some [x]) fixed
     /\ List.length fixed = Sarif.locationCount (Sarif.results run))
  /\ (~ SemverOrder.precedes sv Sarif.fixedSince ->
      Sarif.fixResults files reportFile = Ok files).
Proof.
  assert (Hnonempty : (version =? "") = false).
  { apply String.eqb_neq. intros ->. discriminate. }
  unfold Sarif.fixResults, Sarif.loadReport.
  rewrite Hfile. cbn [Sarif.runs]. rewrite Hversion, Hnonempty.
  rewrite (gte_fixedSince version sv Hparse). split.
  - intros Hold. apply compareSemVer_Lt in Hold. rewrite Hold. cbv zeta.
    rewrite forEachResult_separate. cbn [app].
    eexists. split; [reflexivity |]. split; [reflexivity |].
    split; [apply separateResults_one_location
           | apply separateResults_length].
  - intros Hnew.
    destruct (Semver.compareSemVer sv Sarif.fixedSince) eqn:Hcompare;
      trivial.
    now apply compareSemVer_Lt in Hcompare.
Qed.


Lemma X16_witness :
  SemverOrder.precedes (Semver.mkSemVer 6 40 0 [] []) Sarif.fixedSince
  /\ exists files',
      Sarif.fixResults Sarif.files "pmd-report.sarif" = Ok files'
      /\ files' "pmd-report.sarif"
         = Some (Ok (Sarif.mkLog
                       [Sarif.mkRun (Some "6.40.0")
                          (Some [Sarif.mkResult "UnusedLocalVariable"
                                   (Some ["src/A.java:3"]);
                                 Sarif.mkResult "UnusedLocalVariable"
                                   (Some ["src/A.java:9"]);
                                 Sarif.mkResult "EmptyCatchBlock"
                                   (Some ["src/B.java:7"])])
                          "PMD"])).
Proof.
  assert (Hold : SemverOrder.precedes (Semver.mkSemVer 6 40 0 [] [])
                   Sarif.fixedSince)
    by (apply SemverOrder.precedes_minor; [reflexivity | cbn; lia]).
  split; [exact Hold |].
  destruct (X16_fixResults_separates_violations Sarif.files
              "pmd-report.sarif" "6.40.0" (Semver.mkSemVer 6 40 0 [] [])
              _ [] eq_refl eq_refl eq_refl) as [Hfix _].
  destruct (Hfix Hold) as (fixed & Hrun & -> & _).
  eexists. split; [exact Hrun | reflexivity].
Defined.

(** X17.  [fixResults] is idempotent: on the files it leaves behind, a
    second call succeeds and leaves every file as it is. *)
Theorem X17_fixResults_idempotent {ResultProps Location RunProps : Type}
    (files files' : Sarif.Files ResultProps Location RunProps)
    (reportFile : string)
    (Hfixed : Sarif.fixResults files reportFile = Ok files') :
  exists files'',
    Sarif.fixResults files' reportFile = Ok files''
    /\ forall f, files'' f = files' f.
Proof.
  assert (Hsame : Sarif.fixResults files reportFile = Ok files ->
                  files' = files) by congruence.
  unfold Sarif.fixResults, Sarif.loadReport in Hfixed.
  destruct (files reportFile) as [[report | err] |] eqn:Hfile;
    [| discriminate | ].
  - destruct report as [[| run otherRuns]]; cbn [Sarif.runs] in Hfixed;
      [discriminate |].
    destruct (Sarif.tool_driver_version run) as [version |] eqn:Hversion.
    + destruct (version =? "") eqn:Hempty.
      * injection Hfixed as <-. exists files. split; trivial.
        unfold Sarif.fixResults, Sarif.loadReport.
        rewrite Hfile. cbn [Sarif.runs]. now rewrite Hversion, Hempty.
      * destruct (Semver.gte version "6.43.0") as [[|] | err] eqn:Hgte;
          [| | discriminate].
        -- injection Hfixed as <-. exists files. split; trivial.
           unfold Sarif.fixResults, Sarif.loadReport.
           rewrite Hfile. cbn [Sarif.runs].
           now rewrite Hversion, Hempty, Hgte.
        -- cbv zeta in Hfixed. injection Hfixed as <-.
           rewrite forEachResult_separate. cbn [app].
           eexists. split.
           ++ unfold Sarif.fixResults, Sarif.loadReport.
              rewrite writeFileSync_read.
              cbn [Sarif.runs Sarif.tool_driver_version Sarif.results
                     Sarif.runProps].
              rewrite Hempty, Hgte. cbv zeta. reflexivity.
           ++ intros f. unfold Sarif.writeFileSync.
              destruct (f =? reportFile); trivial.
              rewrite forEachResult_separate. cbn [app].
              now rewrite (separateResults_fixed _
                             (separateResults_one_location
                                (Sarif.results run))).
    + injection Hfixed as <-. exists files. split; trivial.
      unfold Sarif.fixResults, Sarif.loadReport.
      rewrite Hfile. cbn [Sarif.runs]. now rewrite Hversion.
  - injection Hfixed as <-. exists files. split; trivial.
    unfold Sarif.fixResults, Sarif.loadReport. now rewrite Hfile.
Qed.

Lemma X17_witness :
  exists files' files'',
    Sarif.fixResults Sarif.files "pmd-report.sarif" = Ok files'
    /\ Sarif.fixResults files' "pmd-report.sarif" = Ok files''
    /\ forall f, files'' f = files' f.
Proof.
  eexists.
  destruct (X17_fixResults_idempotent Sarif.files _ "pmd-report.sarif"
              eq_refl) as (files'' & Hagain & Hsame).
  exists files''. split; [reflexivity | split; [exact Hagain | exact Hsame]].
Defined.

(** X18.  After [fixResults] has rewritten the report of a PMD version
    before 6.43.0, [countViolations] counts the locations of the original
    results, where before it counted the results. *)
Theorem X18_count_after_fix {ResultProps Location RunProps : Type}
    (files files' : Sarif.Files ResultProps Location RunProps)
    (reportFile version : string) (sv : Semver.SemVer)
    (run : Sarif.Run ResultProps Location RunProps)
    (otherRuns : list (Sarif.Run ResultProps Location RunProps))
    (Hfile : files reportFile = Some (Ok (Sarif.mkLog (run :: otherRuns))))
    (Hversion : Sarif.tool_driver_version run = Some version)
    (Hparse : Semver.parse version = Ok sv)
    (Hold : SemverOrder.precedes sv Sarif.fixedSince)
    (Hfixed : Sarif.fixResults files reportFile = Ok files') :
  Sarif.countViolations files reportFile
  = Ok (match Sarif.results run with
        | Some l => List.length l
        | None => 0
        end)
  /\ Sarif.countViolations files' reportFile
     = Ok (Sarif.locationCount (Sarif.results run)).
Proof.
  rewrite (fixResults_old files reportFile version sv run otherRuns Hfile
             Hversion Hparse Hold) in Hfixed.
  injection Hfixed as <-.
  unfold Sarif.countViolations, Sarif.loadReport.
  rewrite Hfile, writeFileSync_read. cbn [Sarif.runs Sarif.results]. split.
  - destruct (Sarif.results run) as [l |]; trivial. now destruct l.
  - rewrite separateResults_length.
    now destruct (Sarif.locationCount (Sarif.results run)).
Qed.

Lemma X18_witness :
  Sarif.countViolations Sarif.files "pmd-report.sarif" = Ok 4
  /\ exists files',
      Sarif.fixResults Sarif.files "pmd-report.sarif" = Ok files'
      /\ Sarif.countViolations files' "pmd-report.sarif" = Ok 3.
Proof.
  assert (Hold : SemverOrder.precedes (Semver.mkSemVer 6 40 0 [] [])
                   Sarif.fixedSince)
    by (apply SemverOrder.precedes_minor; [reflexivity | cbn; lia]).
  destruct (X18_count_after_fix Sarif.files _ "pmd-report.sarif" "6.40.0"
              (Semver.mkSemVer 6 40 0 [] []) _ [] eq_refl eq_refl eq_refl
              Hold eq_refl) as [Hbefore Hafter].
  split; [exact Hbefore |].
  eexists. split; [reflexivity | exact Hafter].
Defined.

Lemma fold_Set_add_known l s :
  (forall y, In y l -> In y s) -> fold_left Set_add l s = s.
Proof.
  induction l as [| x l IH]; intros Hknown; simpl; trivial.
  assert (Hx : Set_add s x = s).
  { unfold Set_add.
    replace (existsb (String.eqb x) s) with true; trivial.
    symmetry. apply existsb_exists. exists x.
    split; [apply Hknown; now left | apply String.eqb_refl]. }
  rewrite Hx. apply IH. intros y Hy. apply Hknown. now right.
Qed.

Lemma firstOccurrences_app_known l1 l2 :
  (forall y, In y l2 -> In y l1) ->
  firstOccurrences (l1 ++ l2) = firstOccurrences l1.
Proof.
  intros Hknown.
  rewrite <- !fold_Set_add_nil, fold_left_app.
  apply fold_Set_add_known. intros y Hy.
  apply fold_Set_add_In. right. now apply Hknown.
Qed.

(** X19.  Pages that repeat the same entries add nothing: when every page
    that was read carries the same entries, [determineModifiedFiles]
    returns what it returns for one such page. *)
Theorem X19_repeated_pages_add_nothing {P : PathModule} (svc : Services)
    (env : Env) (context : Context) (token sourcePath : string)
    (files : list string) (entries : list DiffEntry)
    (Hret : value (determineModifiedFiles svc env context token sourcePath)
            = Ok (Some files))
    (Hread : readPages (answersOf svc env context token) MAX_PAGE 1 <> [])
    (Hrepeat : forall page,
        In page (readPages (answersOf svc env context token) MAX_PAGE 1) ->
        page = entries) :
  files = firstOccurrences (keptNames sourcePath entries).
Proof.
  rewrite (determineModifiedFiles_returns _ _ _ _ _ _ Hret) in Hret.
  apply resolution_value in Hret. rewrite Hret. clear Hret.
  induction (readPages (answersOf svc env context token) MAX_PAGE 1)
    as [| page read IH]; [now destruct Hread |].
  rewrite (Hrepeat page (or_introl eq_refl)). simpl.
  destruct read as [| page' read].
  - simpl. now rewrite app_nil_r.
  - apply firstOccurrences_app_known. intros y Hy.
    assert (Hin : In y (firstOccurrences
                          (concat (map (keptNames sourcePath)
                                     (page' :: read))))).
    { now apply firstOccurrences_In. }
    rewrite IH in Hin.
    + exact (proj1 (firstOccurrences_In _ _) Hin).
    + discriminate.
    + intros p Hp. apply Hrepeat. now right.
Qed.

Lemma X19_witness :
  value (determineModifiedFiles (Sample.services Sample.endless) Sample.linux
           (Sample.event "pull_request") "my_test_token" "src/main/java")
  = Ok (Some ["src/main/java/AvoidCatchingThrowableSample.java";
              "src/main/java/NewFile.java"; "src/main/java/ChangedFile.java"])
  /\ ["src/main/java/AvoidCatchingThrowableSample.java";
      "src/main/java/NewFile.java"; "src/main/java/ChangedFile.java"]
     = firstOccurrences (keptNames "src/main/java" Sample.page1).
Proof.
  split; [reflexivity |].
  apply (X19_repeated_pages_add_nothing (P := posix)
           (Sample.services Sample.endless) Sample.linux
           (Sample.event "pull_request") "my_test_token" "src/main/java"
           _ Sample.page1 eq_refl).
  - discriminate.
  - intros page Hpage. cbn in Hpage.
    repeat (destruct Hpage as [<- | Hpage]; [reflexivity |]).
    destruct Hpage.
Defined.
